(** * gcp-secret-scanner: the candidate-to-verdict pipeline of [main.py]

    A shallow embedding of [analyze_with_ai], [log_to_bigquery] and
    [hunt_and_analyze], and the properties of the placeholder filter, the
    context window, the verdict parser, the confidence gate and the
    orchestration loop.

    Python [str] values are modelled by [string]: sequences of characters
    with code points below 256.  Calls that leave the process (the
    generative model, BigQuery, the clock, the logger) are recorded in a
    trace of events; what the outside world answers is given by an
    environment of oracles. *)

From Stdlib Require Import Bool Arith Lia List Ascii String DecimalString ZArith.
Import ListNotations.
Open Scope string_scope.

(** ** Python string primitives *)

Definition nl : string := String "010"%char EmptyString.
Definition dquote : string := String "034"%char EmptyString.

(** [str.isspace] on one character, for code points below 256. *)
Definition isspace (c : ascii) : bool :=
  let n := nat_of_ascii c in
  (((9 <=? n) && (n <=? 13)) || ((28 <=? n) && (n <=? 32))
   || (n =? 133) || (n =? 160))%nat.

(** [str.lower] on one character, for code points below 256: the ASCII
    capitals and the Latin-1 capitals (all but the multiplication sign). *)
Definition lower_char (c : ascii) : ascii :=
  let n := nat_of_ascii c in
  if (((65 <=? n) && (n <=? 90)) || ((192 <=? n) && (n <=? 214))
      || ((216 <=? n) && (n <=? 222)))%nat
  then ascii_of_nat (n + 32) else c.

Fixpoint lower (s : string) : string :=
  match s with
  | EmptyString => EmptyString
  | String c r => String (lower_char c) (lower r)
  end.

(** [s.startswith(p)] *)
Definition startswith (s p : string) : bool := prefix p s.

(** [s.find(sub)]: the index of the leftmost occurrence, if any.  It is
    also where the first match of [re.finditer(re.escape(sub), s)] starts:
    an escaped pattern matches its own text and nothing else. *)
Fixpoint find (sub s : string) : option nat :=
  if prefix sub s then Some 0
  else match s with
       | EmptyString => None
       | String _ r => option_map S (find sub r)
       end.

(** [sub in s] *)
Definition contains (sub s : string) : bool :=
  match find sub s with Some _ => true | None => false end.

(** [s[a:b]] for [0 <= a] and [0 <= b] *)
Definition slice (s : string) (a b : nat) : string := substring a (b - a) s.

(** [s.endswith(suf)] *)
Definition endswith (s suf : string) : bool :=
  (length suf <=? length s)%nat
  && String.eqb (slice s (length s - length suf) (length s)) suf.

Fixpoint lstrip (s : string) : string :=
  match s with
  | EmptyString => EmptyString
  | String c r => if isspace c then lstrip r else s
  end.

Fixpoint rstrip (s : string) : string :=
  match s with
  | EmptyString => EmptyString
  | String c r =>
      match rstrip r with
      | EmptyString => if isspace c then EmptyString else String c EmptyString
      | r' => String c r'
      end
  end.

(** [s.strip()] *)
Definition strip (s : string) : string := lstrip (rstrip s).

(** [s.split(sep)] for a one-character separator: never the empty list. *)
Fixpoint split (sep : ascii) (s : string) : list string :=
  match s with
  | EmptyString => [EmptyString]
  | String c r =>
      if Ascii.eqb c sep then EmptyString :: split sep r
      else match split sep r with
           | h :: t => String c h :: t
           | [] => [String c EmptyString]
           end
  end.

(** [s.split(sep, 1)]: one piece when [sep] does not occur, else two. *)
Fixpoint split1 (sep : ascii) (s : string) : list string :=
  match s with
  | EmptyString => [EmptyString]
  | String c r =>
      if Ascii.eqb c sep then [EmptyString; r]
      else match split1 sep r with
           | h :: t => String c h :: t
           | [] => [String c EmptyString]
           end
  end.

(** A Python truth test on a [str]. *)
Definition truthy (s : string) : bool := negb (String.eqb s EmptyString).

(** [str(n)] for a natural number. *)
Definition str_nat (n : nat) : string := NilZero.string_of_uint (Nat.to_uint n).

(** [str(z)] for an integer. *)
Definition str_int (z : Z) : string := NilZero.string_of_int (Z.to_int z).

(** ** Values, rows, findings *)

(** The values a row attribute can hold, as far as the code tells them
    apart: [None], a [str], or something that is not a [str]. *)
Inductive PyVal : Type :=
| PyNone
| PyStr (s : string)
| PyInt (z : Z).

(** [str(v)], as an f-string formats it. *)
Definition py_str (v : PyVal) : string :=
  match v with
  | PyNone => "None"
  | PyStr s => s
  | PyInt z => str_int z
  end.

Definition fmt_opt (v : option string) : string :=
  match v with Some s => s | None => "None" end.

(** The truth value of [v]. *)
Definition py_truthy (v : PyVal) : bool :=
  match v with
  | PyNone => false
  | PyStr s => truthy s
  | PyInt z => negb (Z.eqb z 0)
  end.

Definition isinstance_str (v : PyVal) : bool :=
  match v with PyStr _ => true | _ => false end.

(** The guard [not v or not isinstance(v, str)] of lines 169 and 174 is
    false exactly when [v] is a non-empty [str]; [usable_str] is that
    [str]. *)
Definition usable_str (v : PyVal) : option string :=
  if negb (py_truthy v) || negb (isinstance_str v) then None
  else match v with PyStr s => Some s | _ => None end.

(** A row of the query result; [None] is an attribute the row lacks. *)
Record Row : Type := {
  row_repo_name : option PyVal;
  row_path : option PyVal;
  row_content : option PyVal;
  row_potential_secret : option PyVal
}.

(** [getattr(row, name, default)] *)
Definition getattr (field : option PyVal) (default : PyVal) : PyVal :=
  match field with Some v => v | None => default end.

(** The dict [new_row] of lines 201 to 208. *)
Record Finding : Type := {
  repo_name : PyVal;
  file_path : PyVal;
  secret_snippet : string;
  ai_confidence : string;
  ai_reasoning : string;
  scan_timestamp : string
}.

Record Verdict : Type := {
  confidence : string;
  reasoning : string
}.

(** ** Exceptions, events and the outside world *)

Inductive ExcClass : Type :=
| Forbidden        (* google.api_core.exceptions.Forbidden *)
| BadRequest       (* google.api_core.exceptions.BadRequest *)
| OtherException.  (* any other Exception *)

(** An exception: its class and [str(e)]. *)
Record Exc : Type := {
  exc_class : ExcClass;
  exc_str : string
}.

Inductive Level : Type := DEBUG | INFO | WARNING | ERROR.

(** What the process does to the outside world, in the order it does it. *)
Inductive Event : Type :=
| Logged (lvl : Level) (msg : string)
| BqQuery (sql : string)
| GenerateContent (prompt : string)
| InsertRowsJson (batch : list Finding)
| UtcNow.

Definition Trace : Type := list Event.

(** What lines 114 to 117 read off the model's response: the text of the
    first part of the first candidate when that chain is truthy, else the
    [text] attribute when the response has one, else [str(response)]. *)
Record Response : Type := {
  parts0_text : option string;
  text_attr : option string;
  response_str : string
}.

Inductive GenOutcome : Type :=
| GenReturns (response : Response)
| GenRaises (e : Exc).

(** One entry of the list [insert_rows_json] returns: [error_detail['index']]
    and the text of [error_detail['errors']]. *)
Record InsertError : Type := {
  err_index : nat;
  err_errors : string
}.

Inductive InsertOutcome : Type :=
| InsertReturns (errors : list InsertError)
| InsertRaises (e : Exc).

(** The iterator [query_job.result()]: [total_rows], the rows it yields,
    and the exception that ends the iteration early, if one does. *)
Record RowIterator : Type := {
  total_rows : nat;
  rows : list Row;
  iter_raises : option Exc
}.

Inductive QueryOutcome : Type :=
| QueryReturns (results : RowIterator)
| QueryRaises (e : Exc).

(** The answers of the outside world.  The model and the clock are asked
    several times in a run: their answer may depend on how many times they
    were asked before. *)
Record Env : Type := {
  generate_content : nat -> string -> GenOutcome;
  run_query : string -> QueryOutcome;
  insert_rows_json : list Finding -> InsertOutcome;
  utcnow_isoformat : nat -> string
}.

Definition is_generate (e : Event) : bool :=
  match e with GenerateContent _ => true | _ => false end.

Definition is_insert (e : Event) : bool :=
  match e with InsertRowsJson _ => true | _ => false end.

Definition is_utcnow (e : Event) : bool :=
  match e with UtcNow => true | _ => false end.

(** The prompts sent to the model, the batches sent to the sink. *)
Definition model_calls (t : Trace) : list Event := filter is_generate t.
Definition sink_calls (t : Trace) : list Event := filter is_insert t.
Definition clock_reads (t : Trace) : list Event := filter is_utcnow t.

(** ** A monad for the trace and for exceptions *)

Inductive Result (A : Type) : Type :=
| Ok (a : A)
| Raise (e : Exc).
Arguments Ok {A} a.
Arguments Raise {A} e.

Definition M (A : Type) : Type := Trace -> Result A * Trace.

Definition ret {A} (a : A) : M A := fun t => (Ok a, t).

Definition bind {A B} (m : M A) (k : A -> M B) : M B :=
  fun t =>
    match m t with
    | (Ok a, t') => k a t'
    | (Raise e, t') => (Raise e, t')
    end.

Definition raise {A} (e : Exc) : M A := fun t => (Raise e, t).

(** [try: m except Exception as e: handler e] *)
Definition try_except {A} (m : M A) (handler : Exc -> M A) : M A :=
  fun t =>
    match m t with
    | (Ok a, t') => (Ok a, t')
    | (Raise e, t') => handler e t'
    end.

Notation "x <- m ;; k" := (bind m (fun x => k))
  (at level 61, m at next level, right associativity).
Notation "m ;; k" := (bind m (fun _ => k))
  (at level 61, right associativity).

Definition emit (e : Event) : M unit := fun t => (Ok tt, (t ++ [e])%list).

(** [logging.debug], [logging.info], [logging.warning], [logging.error] *)
Definition log (lvl : Level) (msg : string) : M unit := emit (Logged lvl msg).

(** [gen_model.generate_content(prompt, stream=False)] *)
Definition gen_model_generate_content (env : Env) (prompt : string) : M Response :=
  fun t =>
    match generate_content env (List.length (model_calls t)) prompt with
    | GenReturns r => (Ok r, (t ++ [GenerateContent prompt])%list)
    | GenRaises e => (Raise e, (t ++ [GenerateContent prompt])%list)
    end.

(** [bq_client.query(sql).result()] *)
Definition bq_client_query (env : Env) (sql : string) : M RowIterator :=
  fun t =>
    match run_query env sql with
    | QueryReturns r => (Ok r, (t ++ [BqQuery sql])%list)
    | QueryRaises e => (Raise e, (t ++ [BqQuery sql])%list)
    end.

(** [bq_client.dataset(DATASET_ID).table(TABLE_ID)] and
    [bq_client.insert_rows_json(table_ref, batch)], lines 137 and 138; an
    exception of either is the exception of the call. *)
Definition bq_client_insert_rows_json (env : Env) (batch : list Finding)
  : M (list InsertError) :=
  fun t =>
    match insert_rows_json env batch with
    | InsertReturns errs => (Ok errs, (t ++ [InsertRowsJson batch])%list)
    | InsertRaises e => (Raise e, (t ++ [InsertRowsJson batch])%list)
    end.

(** [datetime.utcnow().isoformat(timespec='microseconds')] *)
Definition utcnow (env : Env) : M string :=
  fun t => (Ok (utcnow_isoformat env (List.length (clock_reads t))), (t ++ [UtcNow])%list).

(** [for x in l: body x] *)
Fixpoint for_each {A} (l : list A) (body : A -> M unit) : M unit :=
  match l with
  | [] => ret tt
  | x :: r => body x ;; for_each r body
  end.

(** ** Configuration *)

Definition DATASET_ID : string := "secret_scanner_results".
Definition TABLE_ID : string := "confirmed_leaks".

(** The text of [HUNT_QUERY], after Python has read its escapes. *)
Definition HUNT_QUERY : string :=
"
    SELECT
      f.repo_name,
      f.path,
      c.content,
      -- REGEXP_EXTRACT without r'' and using \ for escapes, including '
      REGEXP_EXTRACT(c.content, '(?i)(?:api_key|secret_key|access_token)\\s*[:=]\\s*[" ++ dquote ++ "\']?([-a-zA-Z0-9_./]{20,})[" ++ dquote ++ "\']?') AS potential_secret
    FROM
      `bigquery-public-data.github_repos.files` AS f
    JOIN
      `bigquery-public-data.github_repos.contents` AS c
    ON
      f.id = c.id
    WHERE
      -- REGEXP_CONTAINS without r'' and using \.
      (REGEXP_CONTAINS(f.path, '\\.(py|ya?ml|json|env|conf|cfg|properties|sh)$') OR f.path LIKE '%config%')
      AND c.size < 100000 -- Avoid huge files
      -- REGEXP_CONTAINS without r'' and using \s
      AND REGEXP_CONTAINS(c.content, '(?i)(api_key|secret|token|password|credential|private_key)\\s*[:=]')
      -- REGEXP_CONTAINS without r'' - no escapes needed here
      AND NOT REGEXP_CONTAINS(f.path, '(?i)(test|example|sample|demo|mock|fake)')
      AND c.content IS NOT NULL -- Ensure content is not null
      AND LENGTH(c.content) > 0 -- Ensure content is not empty
    LIMIT 25; -- Limit results for function runtime constraints
".

(** ** analyze_with_ai *)

(** The condition of line 60. *)
Definition is_placeholder (potential_secret_value : option string) : bool :=
  match potential_secret_value with
  | None => true
  | Some v =>
      contains "example" (lower v) || contains "test" (lower v)
      || startswith v "YOUR_" || endswith v "_HERE"
  end.

Definition placeholder_text : string :=
  "CONFIDENCE: None" ++ nl ++ "REASONING: Likely placeholder or example value.".

Definition format_error_text : string :=
  "CONFIDENCE: Low" ++ nl ++ "REASONING: AI response format error.".

Definition quota_text : string :=
  "CONFIDENCE: None" ++ nl ++ "REASONING: Vertex AI quota exceeded during analysis.".

Definition communication_error_text : string :=
  "CONFIDENCE: None" ++ nl ++ "REASONING: Error during AI analysis communication.".

(** Lines 66 to 82, with the window as a parameter.  Nothing in the [try]
    block raises on [str] arguments, so its [except] branch has no
    counterpart here.  [max(0, match_start - context_window)] is written
    with the truncated subtraction of [nat], which is already [0] where
    Python's difference is negative. *)
Definition extract_context (context_window : nat) (code_snippet : string)
    (potential_secret_value : option string) : option string :=
  match potential_secret_value with
  | Some v =>
      if truthy code_snippet && truthy v then
        match find v code_snippet with
        | Some match_start =>
            let match_end := match_start + length v in
            let start := Nat.max 0 (match_start - context_window) in
            let end_ := Nat.min (length code_snippet) (match_end + context_window) in
            let contextual_snippet := slice code_snippet start end_ in
            let contextual_snippet :=
              if (0 <? start)%nat then "..." ++ contextual_snippet
              else contextual_snippet in
            let contextual_snippet :=
              if (end_ <? length code_snippet)%nat then contextual_snippet ++ "..."
              else contextual_snippet in
            Some contextual_snippet
        | None => Some (slice code_snippet 0 (context_window * 2) ++ "...")
        end
      else potential_secret_value
  | None => potential_secret_value
  end.

(** Line 65. *)
Definition context_window : nat := 150.

(** The f-string of lines 84 to 108. *)
Definition build_prompt (contextual_snippet potential_secret_value : option string)
  : string :=
"
    You are a Senior Security Analyst specializing in Data Loss Prevention (DLP) reviewing code snippets for leaked secrets.
    Analyze the following 'Potential Secret Value' found within the 'Code Snippet Context'.
    Determine if the value looks like a REAL, ACTIVE credential (API key, token, password) or if it's likely a FALSE POSITIVE (placeholder, example, test data, deactivated key format, identifier, configuration value).

    Consider factors like:
    - Key patterns (common prefixes like sk_live_, AKIA, etc.)
    - Entropy/Randomness of the string
    - Surrounding code (variable names like 'api_key', 'password'; comments mentioning 'test' or 'example')
    - Common placeholder formats (e.g., 'YOUR_API_KEY_HERE', 'xxxxxxxx')

    Provide your analysis STRICTLY in this format:
    CONFIDENCE: [High | Medium | Low | None]
    REASONING: [Your brief explanation justifying the confidence level. Be concise.]

    **Code Snippet Context:**
    ```
    " ++ fmt_opt contextual_snippet ++ "
    ```

    **Potential Secret Value:**
    " ++ fmt_opt potential_secret_value ++ "

    **Your Analysis:**
    ".

(** Lines 113 to 117. *)
Definition analysis_text_of (response : Response) : string :=
  match parts0_text response with
  | Some t => t
  | None =>
      match text_attr response with
      | Some t => t
      | None => response_str response
      end
  end.

Definition analyze_with_ai (env : Env) (code_snippet : string)
    (potential_secret_value : option string) : M string :=
  if is_placeholder potential_secret_value then
    log INFO ("Skipping AI analysis for likely placeholder: "
              ++ fmt_opt potential_secret_value) ;;
    ret placeholder_text
  else
    let contextual_snippet :=
      extract_context context_window code_snippet potential_secret_value in
    let prompt := build_prompt contextual_snippet potential_secret_value in
    try_except
      (response <- gen_model_generate_content env prompt ;;
       let analysis_text := analysis_text_of response in
       if negb (contains "CONFIDENCE:" analysis_text)
          || negb (contains "REASONING:" analysis_text)
       then
         log WARNING ("AI response format invalid: " ++ analysis_text) ;;
         ret format_error_text
       else ret analysis_text)
      (fun e =>
         log ERROR ("Error communicating with Vertex AI: " ++ exc_str e) ;;
         if contains "Quota" (exc_str e) then ret quota_text
         else ret communication_error_text).

(** ** log_to_bigquery *)

Definition log_to_bigquery (env : Env) (rows_to_insert : list Finding) : M unit :=
  match rows_to_insert with
  | [] => log INFO "No new high/medium confidence leaks to insert into BigQuery."
  | _ :: _ =>
      try_except
        (errors <- bq_client_insert_rows_json env rows_to_insert ;;
         match errors with
         | [] =>
             log INFO ("Successfully inserted " ++ str_nat (List.length rows_to_insert)
                       ++ " rows into BigQuery table " ++ DATASET_ID ++ "."
                       ++ TABLE_ID ++ ".")
         | _ :: _ =>
             for_each errors (fun error_detail =>
               log ERROR ("BigQuery insert error: Index "
                          ++ str_nat (err_index error_detail)
                          ++ ", Errors: " ++ err_errors error_detail))
         end)
        (fun e => log ERROR ("Failed to insert rows into BigQuery: " ++ exc_str e))
  end.

(** ** hunt_and_analyze *)

(** [l[1]] raises [IndexError] on a list shorter than two. *)
Definition index_error : Exc :=
  {| exc_class := OtherException; exc_str := "list index out of range" |}.

Definition item1 (l : list string) : Result string :=
  match nth_error l 1 with
  | Some x => Ok x
  | None => Raise index_error
  end.

(** The body of the [try] of lines 184 to 191, started from the defaults of
    lines 182 and 183: the two variables as the block leaves them, and the
    exception when it leaves by one. *)
Definition parse_try (ai_analysis : string) : Verdict * option Exc :=
  let confidence := "None" in
  let reasoning := "Parsing error" in
  let lines := split "010" (strip ai_analysis) in
  let line0 := nth 0 lines EmptyString in
  let line1 := nth 1 lines EmptyString in
  match
    (if (1 <=? List.length lines)%nat && startswith line0 "CONFIDENCE:"
     then match item1 (split1 ":" line0) with
          | Ok x => Ok (strip x)
          | Raise e => Raise e
          end
     else Ok confidence)
  with
  | Raise e => ({| confidence := confidence; reasoning := reasoning |}, Some e)
  | Ok confidence =>
      match
        (if (2 <=? List.length lines)%nat && startswith line1 "REASONING:"
         then match item1 (split1 ":" line1) with
              | Ok x => Ok (strip x)
              | Raise e => Raise e
              end
         else if (List.length lines =? 1)%nat
              then Ok "AI response missing reasoning."
              else Ok reasoning)
      with
      | Raise e => ({| confidence := confidence; reasoning := reasoning |}, Some e)
      | Ok reasoning => ({| confidence := confidence; reasoning := reasoning |}, None)
      end
  end.

(** Lines 182 to 195 without the log: the verdict the parser hands on. *)
Definition parse_verdict (ai_analysis : string) : Verdict :=
  match parse_try ai_analysis with
  | (v, None) => v
  | (v, Some e) =>
      {| confidence := confidence v; reasoning := "Parsing error: " ++ exc_str e |}
  end.

(** Line 199: [confidence.lower() in ["high", "medium"]]. *)
Definition gate (confidence : string) : bool :=
  existsb (String.eqb (lower confidence)) ["high"; "medium"].

(** The variables the loop updates. *)
Record LoopState : Type := {
  count : nat;
  processed_count : nat;
  rows_to_insert : list Finding
}.

Definition where_ (repo_name file_path : PyVal) : string :=
  py_str repo_name ++ "/" ++ py_str file_path.

(** Lines 199 to 210. *)
Definition collect (env : Env) (st : LoopState) (repo_name file_path : PyVal)
    (potential_secret_value : string) (v : Verdict) : M LoopState :=
  if gate (confidence v) then
    let count := count st + 1 in
    now <- utcnow env ;;
    let new_row :=
      {| repo_name := repo_name;
         file_path := file_path;
         secret_snippet := slice potential_secret_value 0 1024;
         ai_confidence := confidence v;
         ai_reasoning := slice (reasoning v) 0 1024;
         scan_timestamp := now ++ "Z" |} in
    log INFO ("Row " ++ str_nat (processed_count st) ++ ": Added potential leak #"
              ++ str_nat count ++ " from " ++ where_ repo_name file_path
              ++ " for BQ insertion.") ;;
    ret {| count := count;
           processed_count := processed_count st;
           rows_to_insert := (rows_to_insert st ++ [new_row])%list |}
  else ret st.

(** The body of the loop, lines 164 to 210. *)
Definition process_row (env : Env) (st : LoopState) (row : Row) : M LoopState :=
  let st := {| count := count st;
               processed_count := processed_count st + 1;
               rows_to_insert := rows_to_insert st |} in
  let potential_secret_value := getattr (row_potential_secret row) PyNone in
  let repo_name := getattr (row_repo_name row) (PyStr "N/A") in
  let file_path := getattr (row_path row) (PyStr "N/A") in
  let row_n := "Row " ++ str_nat (processed_count st) in
  match usable_str potential_secret_value with
  | None =>
      log DEBUG (row_n ++ ": No valid potential_secret found for "
                 ++ where_ repo_name file_path ++ ". Skipping.") ;;
      ret st
  | Some potential_secret_value =>
      content_value <-
        match usable_str (getattr (row_content row) PyNone) with
        | None =>
            log WARNING (row_n ++ ": Content missing for "
                         ++ where_ repo_name file_path
                         ++ ". Using only secret value for AI context.") ;;
            ret EmptyString
        | Some c => ret c
        end ;;
      log INFO (row_n ++ ": Analyzing potential secret in: "
                ++ where_ repo_name file_path) ;;
      ai_analysis <- analyze_with_ai env content_value (Some potential_secret_value) ;;
      log DEBUG (row_n ++ ": AI Analysis result:" ++ nl ++ ai_analysis) ;;
      match snd (parse_try ai_analysis) with
      | Some e =>
          log WARNING ("Error parsing AI response: " ++ exc_str e
                       ++ ". Raw: " ++ ai_analysis)
      | None => ret tt
      end ;;
      let v := parse_verdict ai_analysis in
      log INFO (row_n ++ ": AI Confidence: " ++ confidence v ++ " for "
                ++ where_ repo_name file_path) ;;
      collect env st repo_name file_path potential_secret_value v
  end.

(** [for row in results: ...], then the exception of the iterator if it
    ends by one. *)
Fixpoint for_rows (env : Env) (st : LoopState) (l : list Row) : M LoopState :=
  match l with
  | [] => ret st
  | row :: r => st' <- process_row env st row ;; for_rows env st' r
  end.

Definition iterate (env : Env) (st : LoopState) (results : RowIterator)
  : M LoopState :=
  st' <- for_rows env st (rows results) ;;
  match iter_raises results with
  | Some e => raise e
  | None => ret st'
  end.

Definition final_message (processed_count accepted : nat) : string :=
  "Scan complete. Processed " ++ str_nat processed_count
  ++ " candidates. Found and logged " ++ str_nat accepted
  ++ " high/medium-confidence leaks.".

(** The entry point; its [request] argument is never read.  The result is
    the pair of the response body and the HTTP status. *)
Definition hunt_and_analyze (env : Env) : M (string * nat) :=
  log INFO "Cloud Function execution started." ;;
  try_except
    (log INFO "Starting BigQuery hunt query..." ;;
     results <- bq_client_query env HUNT_QUERY ;;
     log INFO ("BigQuery hunt query complete. Found " ++ str_nat (total_rows results)
               ++ " potential candidates.") ;;
     st <- iterate env {| count := 0; processed_count := 0; rows_to_insert := [] |}
             results ;;
     log_to_bigquery env (rows_to_insert st) ;;
     let final_message :=
       final_message (processed_count st) (List.length (rows_to_insert st)) in
     log INFO final_message ;;
     ret (final_message, 200))
    (fun e =>
       match exc_class e with
       | Forbidden =>
           log ERROR ("Permission error during BigQuery job execution: " ++ exc_str e) ;;
           ret ("Permission Error: " ++ exc_str e, 500)
       | BadRequest =>
           log ERROR ("Bad Request/Query Syntax error during BigQuery job execution: "
                      ++ exc_str e) ;;
           log ERROR ("Failing Query:" ++ nl ++ "---" ++ nl ++ HUNT_QUERY ++ nl ++ "---") ;;
           ret ("Bad Query Error: " ++ exc_str e, 500)
       | OtherException =>
           log ERROR ("Critical error during function execution: " ++ exc_str e) ;;
           ret ("Error during execution: " ++ exc_str e, 500)
       end).

(** Running a computation from the empty trace. *)
Definition run {A} (m : M A) : Result A * Trace := m [].

(** ** The words of the specification *)

(** [word] occurs in [s], letter case ignored. *)
Definition occurs_ignoring_case (word s : string) : Prop :=
  exists a m b, s = a ++ m ++ b /\ lower m = word.

(** The placeholder rules: the value is absent, or contains "example" or
    "test" in any letter case, or starts with "YOUR_", or ends with
    "_HERE". *)
Definition placeholder_rule (potential_secret_value : option string) : Prop :=
  match potential_secret_value with
  | None => True
  | Some v =>
      occurs_ignoring_case "example" v \/ occurs_ignoring_case "test" v
      \/ (exists r, v = "YOUR_" ++ r) \/ (exists r, v = r ++ "_HERE")
  end.

(** Two strings are equal, letter case ignored. *)
Definition eq_ignoring_case (a b : string) : Prop := lower a = lower b.

Fixpoint has_newline (s : string) : bool :=
  match s with
  | EmptyString => false
  | String c r => Ascii.eqb c "010" || has_newline r
  end.

(** The environment [env] with another persistence sink. *)
Definition with_sink (env : Env) (sink : list Finding -> InsertOutcome) : Env :=
  {| generate_content := generate_content env;
     run_query := run_query env;
     insert_rows_json := sink;
     utcnow_isoformat := utcnow_isoformat env |}.

(** ** Sample environments *)

(** An outside world that gives the same answers at every call. *)
Definition constant_env (model : GenOutcome) (query : QueryOutcome)
    (sink : InsertOutcome) : Env :=
  {| generate_content := fun _ _ => model;
     run_query := fun _ => query;
     insert_rows_json := fun _ => sink;
     utcnow_isoformat := fun _ => "2024-01-01T00:00:00.000000" |}.

(** The model answers with [text] in the first part of its first candidate. *)
Definition says (text : string) : GenOutcome :=
  GenReturns {| parts0_text := Some text; text_attr := None; response_str := text |}.

Definition unreachable (what : string) : Exc :=
  {| exc_class := OtherException; exc_str := what ++ " is unreachable" |}.

(** Nothing outside answers: every call raises. *)
Definition offline_env : Env :=
  constant_env (GenRaises (unreachable "Vertex AI"))
               (QueryRaises (unreachable "BigQuery"))
               (InsertRaises (unreachable "BigQuery")).

(** A row with all four attributes, each a [str]. *)
Definition candidate (repo path content secret : string) : Row :=
  {| row_repo_name := Some (PyStr repo);
     row_path := Some (PyStr path);
     row_content := Some (PyStr content);
     row_potential_secret := Some (PyStr secret) |}.

Definition returns_rows (l : list Row) : QueryOutcome :=
  QueryReturns {| total_rows := List.length l; rows := l; iter_raises := None |}.

(** The loop state before the first row, lines 153, 161 and 162. *)
Definition initial_state : LoopState :=
  {| count := 0; processed_count := 0; rows_to_insert := [] |}.

(** The state of a row that was counted and skipped. *)
Definition counted (st : LoopState) : LoopState :=
  {| count := count st;
     processed_count := processed_count st + 1;
     rows_to_insert := rows_to_insert st |}.

(** The trace when the loop starts, after a query that returned [results]. *)
Definition trace_at_loop (t : Trace) (results : RowIterator) : Trace :=
  (t ++ [Logged INFO "Cloud Function execution started.";
         Logged INFO "Starting BigQuery hunt query...";
         BqQuery HUNT_QUERY;
         Logged INFO ("BigQuery hunt query complete. Found "
                      ++ str_nat (total_rows results) ++ " potential candidates.")])%list.

(** A run of [collect] appended a finding to the list. *)
Definition finding_added (st : LoopState) (r : Result LoopState * Trace) : Prop :=
  exists st' f, fst r = Ok st' /\ rows_to_insert st' = (rows_to_insert st ++ [f])%list.

(** Ten candidates, each answered with a low confidence; the sink is down. *)
Definition ten_candidates : RowIterator :=
  {| total_rows := 10;
     rows := repeat (candidate "r1" "cfg.yaml" "api_key = AbCdEf1234567890XyZ"
                               "AbCdEf1234567890XyZ") 10;
     iter_raises := None |}.

Definition ten_rejected_env : Env :=
  constant_env (says ("CONFIDENCE: Low" ++ nl ++ "REASONING: Looks like a sample value."))
               (QueryReturns ten_candidates)
               (InsertRaises (unreachable "BigQuery")).

(** The query is refused. *)
Definition query_fails_env (e : Exc) : Env :=
  constant_env (GenRaises (unreachable "Vertex AI")) (QueryRaises e)
               (InsertRaises (unreachable "BigQuery")).

(** A row with no attribute at all. *)
Definition bare_row : Row :=
  {| row_repo_name := None; row_path := None; row_content := None;
     row_potential_secret := None |}.

(** A row that costs a call of the model: its secret is a non-empty [str]
    and no placeholder. *)
Definition needs_model (row : Row) : bool :=
  match usable_str (getattr (row_potential_secret row) PyNone) with
  | Some v => negb (is_placeholder (Some v))
  | None => false
  end.

(** The content the loop hands to the classifier, lines 173 to 176. *)
Definition content_of (row : Row) : string :=
  match usable_str (getattr (row_content row) PyNone) with
  | Some c => c
  | None => EmptyString
  end.

(** * Properties *)

(** ** Strings *)

Lemma append_nil_r (s : string) : s ++ EmptyString = s.
Proof. induction s as [|c s IH]; simpl; [reflexivity | now rewrite IH]. Qed.

Lemma append_assoc (a b c : string) : (a ++ b) ++ c = a ++ b ++ c.
Proof. induction a as [|x a IH]; simpl; [reflexivity | now rewrite IH]. Qed.

Lemma length_append (a b : string) : length (a ++ b) = length a + length b.
Proof. induction a as [|x a IH]; simpl; [reflexivity | now rewrite IH]. Qed.

Lemma lower_append (a b : string) : lower (a ++ b) = lower a ++ lower b.
Proof. induction a as [|x a IH]; simpl; [reflexivity | now rewrite IH]. Qed.

Lemma prefix_append (p r : string) : prefix p (p ++ r) = true.
Proof.
  induction p as [|c p IH]; simpl.
  - now destruct r.
  - destruct (ascii_dec c c) as [_|ne]; [exact IH | now elim ne].
Qed.

Lemma prefix_split (p s : string) : prefix p s = true -> exists r, s = p ++ r.
Proof.
  revert s; induction p as [|c p IH]; intros s H.
  - now exists s.
  - destruct s as [|d s]; simpl in H; [discriminate|].
    destruct (ascii_dec c d) as [->|]; [|discriminate].
    destruct (IH _ H) as [r ->]. now exists r.
Qed.

Lemma prefix_empty (p : string) : prefix p EmptyString = true -> p = EmptyString.
Proof. destruct p; simpl; [reflexivity | discriminate]. Qed.

Lemma find_eq (sub s : string) :
  find sub s = if prefix sub s then Some 0
               else match s with
                    | EmptyString => None
                    | String _ r => option_map S (find sub r)
                    end.
Proof. destruct s; reflexivity. Qed.

Lemma find_occurrence (a sub b : string) : exists n, find sub (a ++ sub ++ b) = Some n.
Proof.
  induction a as [|c a [n IH]].
  - exists 0. change (EmptyString ++ sub ++ b) with (sub ++ b).
    now rewrite find_eq, prefix_append.
  - rewrite find_eq. change (String c a ++ sub ++ b) with (String c (a ++ sub ++ b)).
    destruct (prefix sub (String c (a ++ sub ++ b))); [now exists 0|].
    rewrite IH. now exists (S n).
Qed.

Lemma contains_occurrence (a sub b : string) : contains sub (a ++ sub ++ b) = true.
Proof. unfold contains. now destruct (find_occurrence a sub b) as [n ->]. Qed.

Lemma substring_all (s : string) : substring 0 (length s) s = s.
Proof. induction s as [|c s IH]; simpl; [reflexivity | now rewrite IH]. Qed.

Lemma substring_skip (a s : string) (m : nat) :
  substring (length a) m (a ++ s) = substring 0 m s.
Proof. induction a as [|c a IH]; simpl; [reflexivity | exact IH]. Qed.

Lemma substring_take_append (a s : string) (m : nat) :
  substring 0 (length a + m) (a ++ s) = a ++ substring 0 m s.
Proof. induction a as [|c a IH]; simpl; [reflexivity | now rewrite IH]. Qed.

Lemma substring_beyond (s : string) (m : nat) :
  length s <= m -> substring 0 m s = s.
Proof.
  revert m; induction s as [|c s IH]; intros m H.
  - now destruct m.
  - destruct m as [|m]; simpl in *; [lia|]. rewrite IH; [reflexivity | lia].
Qed.

Lemma substring_min (s : string) (m : nat) :
  substring 0 (Nat.min (length s) m) s = substring 0 m s.
Proof.
  destruct (Nat.le_ge_cases (length s) m) as [H|H].
  - rewrite Nat.min_l by exact H. rewrite substring_all, substring_beyond by exact H.
    reflexivity.
  - now rewrite Nat.min_r.
Qed.

Lemma substring_drop (a s : string) (n m : nat) :
  n <= length a -> substring n m (a ++ s) = substring 0 m (substring n (length a - n) a ++ s).
Proof.
  revert n; induction a as [|c a IH]; intros n H; simpl in *.
  - assert (n = 0) as -> by lia. reflexivity.
  - destruct n as [|n].
    + simpl. now rewrite substring_all.
    + simpl. apply IH. lia.
Qed.

Lemma endswith_append (r suf : string) : endswith (r ++ suf) suf = true.
Proof.
  unfold endswith, slice. rewrite length_append.
  replace (length r + length suf - length suf) with (length r) by lia.
  replace (length r + length suf - length r) with (length suf) by lia.
  rewrite substring_skip, substring_all, String.eqb_refl.
  rewrite andb_true_r. apply Nat.leb_le. lia.
Qed.

(** ** The placeholder filter *)

Lemma contains_ignoring_case (word v : string) :
  occurs_ignoring_case word v -> contains word (lower v) = true.
Proof.
  intros (a & m & b & -> & <-).
  rewrite !lower_append. apply contains_occurrence.
Qed.

Lemma placeholder_rule_detected (v : option string) :
  placeholder_rule v -> is_placeholder v = true.
Proof.
  destruct v as [v|]; [|reflexivity].
  unfold placeholder_rule, is_placeholder.
  intros [H|[H|[[r ->]|[r ->]]]].
  - now rewrite (contains_ignoring_case _ _ H).
  - rewrite (contains_ignoring_case _ _ H). now rewrite orb_true_r.
  - unfold startswith. rewrite prefix_append. now rewrite orb_true_r.
  - rewrite endswith_append. now rewrite !orb_true_r.
Qed.

(** C2: a candidate whose secret value is absent, contains "example" or
    "test" in any letter case, starts with "YOUR_" or ends with "_HERE" is
    answered without a call of the model: [analyze_with_ai] returns the
    two-line text "CONFIDENCE: None" / "REASONING: Likely placeholder or
    example value.", and the only event it adds to the trace is one line
    of log. *)
Theorem placeholder_never_classified (env : Env) (code_snippet : string)
    (potential_secret_value : option string) (t : Trace) :
  placeholder_rule potential_secret_value ->
  fst (analyze_with_ai env code_snippet potential_secret_value t)
  = Ok ("CONFIDENCE: None" ++ nl ++ "REASONING: Likely placeholder or example value.")
  /\ model_calls (snd (analyze_with_ai env code_snippet potential_secret_value t))
     = model_calls t
  /\ exists msg,
       snd (analyze_with_ai env code_snippet potential_secret_value t)
       = (t ++ [Logged INFO msg])%list.
Proof.
  intros H. unfold analyze_with_ai.
  rewrite (placeholder_rule_detected _ H).
  unfold bind, log, emit, ret; simpl. repeat split.
  - unfold model_calls. rewrite filter_app. simpl. apply app_nil_r.
  - eexists. reflexivity.
Qed.

Lemma placeholder_never_classified_witness :
  fst (analyze_with_ai
offline_env "api_key = My_LaTest_Key_0123456789"
              (Some "My_LaTest_Key_0123456789") [])
  = Ok ("CONFIDENCE: None" ++ nl ++ "REASONING: Likely placeholder or example value.")
  /\ model_calls (snd (analyze_with_ai
offline_env "api_key = My_LaTest_Key_0123456789"
              (Some "My_LaTest_Key_0123456789") []))
     = model_calls []
  /\ exists msg,
       snd (analyze_with_ai
offline_env "api_key = My_LaTest_Key_0123456789"
              (Some "My_LaTest_Key_0123456789") [])
       = ([] ++ [Logged INFO msg])%list.
Proof.
  apply placeholder_never_classified.
  right; left. exists "My_La", "Test", "_Key_0123456789". split; reflexivity.
Defined.

(** ** The context window *)

Lemma truthy_nonempty (s : string) : s <> EmptyString -> truthy s = true.
Proof. unfold truthy. now destruct s. Qed.

Lemma append_nonempty_r (a b : string) : b <> EmptyString -> a ++ b <> EmptyString.
Proof. destruct a; simpl; [tauto | discriminate]. Qed.

Lemma append_nonempty_l (a b : string) : a <> EmptyString -> a ++ b <> EmptyString.
Proof. destruct a; simpl; [tauto | discriminate]. Qed.

Lemma length_substring_tail (a : string) (n : nat) :
  n <= length a -> length (substring n (length a - n) a) = length a - n.
Proof.
  revert n; induction a as [|c a IH]; intros n H; simpl in *.
  - now destruct n.
  - destruct n as [|n]; simpl.
    + now rewrite substring_all.
    + apply IH. lia.
Qed.

Lemma ellipsis_left (c : bool) (x : string) :
  (if c then "..." ++ x else x) = (if c then "..." else EmptyString) ++ x.
Proof. now destruct c. Qed.

Lemma ellipsis_right (c : bool) (x : string) :
  (if c then x ++ "..." else x) = x ++ (if c then "..." else EmptyString).
Proof. destruct c; [reflexivity | now rewrite append_nil_r]. Qed.

(** The excerpt around a first occurrence: [context_window] characters on
    each side, and an ellipsis on a side where text was cut off. *)
Lemma extract_context_window (w : nat) (pre secret post : string) :
  secret <> EmptyString ->
  find secret (pre ++ secret ++ post) = Some (length pre) ->
  extract_context w (pre ++ secret ++ post) (Some secret)
  = Some ((if (w <? length pre)%nat then "..." else EmptyString)
          ++ slice pre (length pre - w) (length pre) ++ secret ++ slice post 0 w
          ++ (if (w <? length post)%nat then "..." else EmptyString)).
Proof.
  intros Hs Hf. unfold extract_context.
  rewrite (truthy_nonempty secret Hs).
  rewrite (truthy_nonempty _ (append_nonempty_r pre _ (append_nonempty_l secret post Hs))).
  rewrite Hf. cbv zeta. rewrite Nat.max_0_l.
  set (start := length pre - w).
  assert (Hstart : start <= length pre) by (unfold start; lia).
  assert (Hslice :
    slice (pre ++ secret ++ post) start
      (Nat.min (length (pre ++ secret ++ post)) (length pre + length secret + w))
    = slice pre start (length pre) ++ secret ++ slice post 0 w).
  { unfold slice. rewrite (substring_drop pre (secret ++ post)) by exact Hstart.
    pose proof (length_substring_tail pre start Hstart) as Hlen.
    set (p := substring start (length pre - start) pre) in *.
    rewrite !length_append.
    replace (Nat.min (length pre + (length secret + length post))
                     (length pre + length secret + w) - start)
      with (length p + (length secret + Nat.min (length post) w)) by lia.
    rewrite substring_take_append, substring_take_append, substring_min.
    now rewrite Nat.sub_0_r. }
  rewrite Hslice. rewrite ellipsis_left, ellipsis_right.
  replace (0 <? start)%nat with (w <? length pre)%nat.
  2:{ unfold start. destruct (Nat.ltb_spec w (length pre)), (Nat.ltb_spec 0 (length pre - w));
      try reflexivity; lia. }
  replace (Nat.min (length (pre ++ secret ++ post)) (length pre + length secret + w)
           <? length (pre ++ secret ++ post))%nat with (w <? length post)%nat.
  2:{ rewrite !length_append.
      destruct (Nat.ltb_spec w (length post)),
        (Nat.ltb_spec (Nat.min (length pre + (length secret + length post))
                               (length pre + length secret + w))
                      (length pre + (length secret + length post)));
      try reflexivity; lia. }
  unfold start. now rewrite !append_assoc.
Qed.

(** C3 (as the code has it): for the content "AAAA" + "SECRET123" + "BBBB",
    the secret "SECRET123" and a window of 2 the excerpt is
    "...AASECRET123BB...", with an ellipsis on each side, since text was
    cut off on each side.  When the match is at the start of the content
    nothing is put before it; when the match is at the end of the content
    nothing is put after it. *)
Theorem context_window_ellipses :
  extract_context 2 ("AAAA" ++ "SECRET123" ++ "BBBB") (Some "SECRET123")
  = Some "...AASECRET123BB..."
  /\ (forall (w : nat) (secret post : string),
        secret <> EmptyString ->
        extract_context w (secret ++ post) (Some secret)
        = Some (secret ++ slice post 0 w
                ++ (if (w <? length post)%nat then "..." else EmptyString)))
  /\ (forall (w : nat) (pre secret : string),
        secret <> EmptyString ->
        find secret (pre ++ secret) = Some (length pre) ->
        extract_context w (pre ++ secret) (Some secret)
        = Some ((if (w <? length pre)%nat then "..." else EmptyString)
                ++ slice pre (length pre - w) (length pre) ++ secret)).
Proof.
  split; [reflexivity | split].
  - intros w secret post Hs.
    assert (Hf : find secret (EmptyString ++ secret ++ post) = Some (length EmptyString)).
    { change (EmptyString ++ secret ++ post) with (secret ++ post).
      now rewrite find_eq, prefix_append. }
    exact (extract_context_window w EmptyString secret post Hs Hf).
  - intros w pre secret Hs Hf.
    pose proof (extract_context_window w pre secret EmptyString Hs) as H.
    rewrite !append_nil_r in H. specialize (H Hf).
    rewrite H.
    replace (slice EmptyString 0 w) with EmptyString by (unfold slice; now destruct w).
    now rewrite append_nil_r.
Qed.

Lemma context_window_ellipses_witness :
  extract_context 2 ("SECRET123" ++ "BBBB") (Some "SECRET123") = Some "SECRET123BB..."
  /\ extract_context 2 ("AAAA" ++ "SECRET123") (Some "SECRET123") = Some "...AASECRET123".
Proof.
  split.
  - apply (proj1 (proj2 context_window_ellipses) 2 "SECRET123" "BBBB"). discriminate.
  - apply (proj2 (proj2 context_window_ellipses) 2 "AAAA" "SECRET123");
      [discriminate | reflexivity].
Defined.

(** C3, the example as the claim states it: the excerpt is not
    "AASECRET123BB". *)
Lemma context_window_example_has_ellipses :
  extract_context 2 ("AAAA" ++ "SECRET123" ++ "BBBB") (Some "SECRET123")
  = Some "...AASECRET123BB..."
  /\ extract_context 2 ("AAAA" ++ "SECRET123" ++ "BBBB") (Some "SECRET123")
     <> Some "AASECRET123BB".
Proof. split; [reflexivity | discriminate]. Qed.

(** With the window of the source, 150 characters, the same content is
    short enough to be the whole excerpt. *)
Example context_window_of_source :
  extract_context context_window ("AAAA" ++ "SECRET123" ++ "BBBB") (Some "SECRET123")
  = Some "AAAASECRET123BBBB".
Proof. reflexivity. Qed.

(** ** The verdict parser *)

Lemma rstrip_append (a b : string) :
  rstrip (a ++ b)
  = match rstrip b with
    | EmptyString => rstrip a
    | String _ _ => a ++ rstrip b
    end.
Proof.
  induction a as [|c a IH].
  - simpl. now destruct (rstrip b).
  - change (String c a ++ b) with (String c (a ++ b)).
    cbn [rstrip]. rewrite IH.
    destruct (rstrip b) as [|x y]; [reflexivity|].
    now destruct a.
Qed.

Lemma rstrip_cons (c : ascii) (r : string) :
  rstrip (String c r)
  = match rstrip r with
    | EmptyString => if isspace c then EmptyString else String c EmptyString
    | String x y => String c (String x y)
    end.
Proof. reflexivity. Qed.

Lemma rstrip_idempotent (s : string) : rstrip (rstrip s) = rstrip s.
Proof.
  induction s as [|c s IH]; [reflexivity|].
  rewrite rstrip_cons. destruct (rstrip s) as [|x y] eqn:E.
  - destruct (isspace c) eqn:Ec; [reflexivity|]. simpl. now rewrite Ec.
  - rewrite rstrip_cons, IH. reflexivity.
Qed.

Lemma has_newline_rstrip (s : string) :
  has_newline s = false -> has_newline (rstrip s) = false.
Proof.
  induction s as [|c s IH]; [reflexivity|].
  cbn [has_newline rstrip]. intros H. apply orb_false_elim in H as [Hc Hs].
  specialize (IH Hs). destruct (rstrip s) as [|x y].
  - destruct (isspace c); [reflexivity|]. simpl. now rewrite Hc.
  - cbn [has_newline] in *. now rewrite Hc, IH.
Qed.

Lemma split_nonempty (sep : ascii) (s : string) : split sep s <> [].
Proof.
  destruct s as [|c s]; simpl; [discriminate|].
  destruct (Ascii.eqb c sep); [discriminate|].
  destruct (split sep s); discriminate.
Qed.

(** A text without a line feed is one line. *)
Lemma split_single_line (s : string) : has_newline s = false -> split "010" s = [s].
Proof.
  induction s as [|c s IH]; [reflexivity|].
  cbn [has_newline split]. intros H. apply orb_false_elim in H as [Hc Hs].
  now rewrite Hc, (IH Hs).
Qed.

Lemma split_first_line (l0 rest : string) :
  has_newline l0 = false ->
  split "010" (l0 ++ nl ++ rest) = l0 :: split "010" rest.
Proof.
  induction l0 as [|c l0 IH]; [reflexivity|].
  cbn [has_newline]. intros H. apply orb_false_elim in H as [Hc Hs].
  change (String c l0 ++ nl ++ rest) with (String c (l0 ++ nl ++ rest)).
  cbn [split]. now rewrite Hc, (IH Hs).
Qed.

(** After a marker that ends in a colon, [split(":", 1)[1]] is there and
    is the rest of the line. *)
Lemma item1_after_confidence (line : string) :
  startswith line "CONFIDENCE:" = true ->
  exists r, line = "CONFIDENCE:" ++ r /\ item1 (split1 ":" line) = Ok r.
Proof.
  intros H. destruct (prefix_split _ _ H) as [r ->]. now exists r.
Qed.

Lemma item1_after_reasoning (line : string) :
  startswith line "REASONING:" = true ->
  exists r, line = "REASONING:" ++ r /\ item1 (split1 ":" line) = Ok r.
Proof.
  intros H. destruct (prefix_split _ _ H) as [r ->]. now exists r.
Qed.

(** The [except] branch of the parser is never taken. *)
Lemma parse_never_raises (ai_analysis : string) : snd (parse_try ai_analysis) = None.
Proof.
  unfold parse_try. cbv zeta.
  set (lines := split "010" (strip ai_analysis)).
  destruct ((1 <=? List.length lines)%nat && startswith (nth 0 lines EmptyString) "CONFIDENCE:")
    eqn:E0.
  - apply andb_prop in E0 as [_ E0].
    destruct (item1_after_confidence _ E0) as (r & _ & ->).
    destruct ((2 <=? List.length lines)%nat && startswith (nth 1 lines EmptyString) "REASONING:")
      eqn:E1.
    + apply andb_prop in E1 as [_ E1].
      now destruct (item1_after_reasoning _ E1) as (r' & _ & ->).
    + now destruct (List.length lines =? 1)%nat.
  - destruct ((2 <=? List.length lines)%nat && startswith (nth 1 lines EmptyString) "REASONING:")
      eqn:E1.
    + apply andb_prop in E1 as [_ E1].
      now destruct (item1_after_reasoning _ E1) as (r' & _ & ->).
    + now destruct (List.length lines =? 1)%nat.
Qed.

Lemma parse_verdict_try (ai_analysis : string) :
  parse_verdict ai_analysis = fst (parse_try ai_analysis).
Proof.
  unfold parse_verdict. pose proof (parse_never_raises ai_analysis) as H.
  destruct (parse_try ai_analysis) as [v [e|]]; [discriminate | reflexivity].
Qed.

(** A first line that does not start with the marker leaves the default
    confidence in place. *)
Lemma parse_confidence_default (ai_analysis : string) :
  startswith (nth 0 (split "010" (strip ai_analysis)) EmptyString) "CONFIDENCE:" = false ->
  confidence (parse_verdict ai_analysis) = "None".
Proof.
  intros H. rewrite parse_verdict_try. unfold parse_try. cbv zeta.
  rewrite H, andb_false_r.
  set (lines := split "010" (strip ai_analysis)).
  destruct ((2 <=? List.length lines)%nat && startswith (nth 1 lines EmptyString) "REASONING:")
    eqn:E1.
  - apply andb_prop in E1 as [_ E1].
    now destruct (item1_after_reasoning _ E1) as (r' & _ & ->).
  - now destruct (List.length lines =? 1)%nat.
Qed.

(** The parser on one line. *)
Lemma parse_single_line (ai_analysis : string) :
  has_newline (strip ai_analysis) = false ->
  reasoning (parse_verdict ai_analysis) = "AI response missing reasoning."
  /\ (startswith (strip ai_analysis) "CONFIDENCE:" = false ->
      confidence (parse_verdict ai_analysis) = "None")
  /\ (forall r, strip ai_analysis = "CONFIDENCE:" ++ r ->
      confidence (parse_verdict ai_analysis) = strip r).
Proof.
  intros H. rewrite parse_verdict_try. unfold parse_try. cbv zeta.
  rewrite (split_single_line _ H). cbn [nth List.length Nat.leb Nat.eqb andb].
  repeat split.
  - destruct (startswith (strip ai_analysis) "CONFIDENCE:") eqn:E0; [|reflexivity].
    now destruct (item1_after_confidence _ E0) as (r & _ & ->).
  - now intros ->.
  - intros r ->. unfold startswith. rewrite prefix_append. reflexivity.
Qed.

Lemma confidence_line (r : string) :
  startswith ("CONFIDENCE:" ++ r) "CONFIDENCE:" = true
  /\ item1 (split1 ":" ("CONFIDENCE:" ++ r)) = Ok r.
Proof. split; [apply prefix_append | reflexivity]. Qed.

Lemma reasoning_line (r : string) :
  startswith ("REASONING:" ++ r) "REASONING:" = true
  /\ item1 (split1 ":" ("REASONING:" ++ r)) = Ok r.
Proof. split; [apply prefix_append | reflexivity]. Qed.

Lemma strip_after_space (x : string) : strip (" " ++ x) = strip x.
Proof.
  unfold strip. change (" " ++ x) with (String " " x). rewrite rstrip_cons.
  now destruct (rstrip x).
Qed.

(** The reasoning line once the whole text is stripped on the right. *)
Lemma rstrip_reasoning_line (y : string) :
  exists t,
    rstrip ("REASONING: " ++ y) = "REASONING:" ++ t
    /\ strip t = strip y
    /\ (has_newline y = false -> has_newline t = false).
Proof.
  rewrite rstrip_append. destruct (rstrip y) as [|c r] eqn:E.
  - exists EmptyString. repeat split. unfold strip. now rewrite E.
  - exists (" " ++ String c r). repeat split.
    + rewrite strip_after_space. unfold strip. rewrite <- E.
      now rewrite rstrip_idempotent.
    + intros H. apply has_newline_rstrip in H. rewrite E in H. exact H.
Qed.

(** The parser on the two-line format, whatever the confidence token. *)
Lemma parse_two_lines (x y : string) :
  has_newline x = false ->
  has_newline y = false ->
  parse_verdict ("CONFIDENCE: " ++ x ++ nl ++ "REASONING: " ++ y)
  = {| confidence := strip x; reasoning := strip y |}.
Proof.
  intros Hx Hy. rewrite parse_verdict_try. unfold parse_try. cbv zeta.
  destruct (rstrip_reasoning_line y) as (t & Ht & Hstrip & Hnl).
  assert (Hs : strip ("CONFIDENCE: " ++ x ++ nl ++ "REASONING: " ++ y)
               = ("CONFIDENCE:" ++ " " ++ x) ++ nl ++ "REASONING:" ++ t).
  { unfold strip.
    replace ("CONFIDENCE: " ++ x ++ nl ++ "REASONING: " ++ y)
      with (("CONFIDENCE: " ++ x ++ nl) ++ "REASONING: " ++ y)
      by now rewrite !append_assoc.
    rewrite rstrip_append, Ht.
    change ("REASONING:" ++ t) with (String "R" ("EASONING:" ++ t)).
    cbv iota. now rewrite !append_assoc. }
  rewrite Hs. rewrite split_first_line by exact Hx.
  rewrite split_single_line by (apply Hnl, Hy).
  cbn [nth List.length Nat.leb andb].
  destruct (confidence_line (" " ++ x)) as [-> ->].
  destruct (reasoning_line t) as [-> ->].
  cbn [fst]. now rewrite strip_after_space, Hstrip.
Qed.

(** C4: for a confidence token X among High, Medium, Low and None and a
    reasoning text Y of one line, the parser reads the two-line text
    "CONFIDENCE: X" / "REASONING: Y" back as the confidence X and the
    reasoning Y with the white space at its ends removed. *)
Theorem two_line_round_trip (x y : string) :
  In x ["High"; "Medium"; "Low"; "None"] ->
  has_newline y = false ->
  parse_verdict ("CONFIDENCE: " ++ x ++ nl ++ "REASONING: " ++ y)
  = {| confidence := x; reasoning := strip y |}.
Proof.
  intros Hx Hy.
  assert (has_newline x = false /\ strip x = x) as [Hnl Hstrip].
  { cbn [In] in Hx. destruct Hx as [<-|[<-|[<-|[<-|[]]]]]; split; reflexivity. }
  rewrite (parse_two_lines x y Hnl Hy). now rewrite Hstrip.
Qed.

Lemma two_line_round_trip_witness :
  parse_verdict ("CONFIDENCE: " ++ "Medium" ++ nl ++ "REASONING: "
                 ++ "  Looks like a live password. ")
  = {| confidence := "Medium"; reasoning := "Looks like a live password." |}.
Proof.
  apply (two_line_round_trip "Medium" "  Looks like a live password. ");
    [right; left; reflexivity | reflexivity].
Defined.

(** C9: on a text of one line, the parser sets the reasoning to "AI
    response missing reasoning.", whether or not the line starts with
    "CONFIDENCE:"; when it does not, the confidence stays at its default
    "None", and when it does, the confidence is what follows the colon. *)
Theorem single_line_missing_reasoning (ai_analysis : string) :
  has_newline (strip ai_analysis) = false ->
  reasoning (parse_verdict ai_analysis) = "AI response missing reasoning."
  /\ (startswith (strip ai_analysis) "CONFIDENCE:" = false ->
      confidence (parse_verdict ai_analysis) = "None")
  /\ (forall r, strip ai_analysis = "CONFIDENCE:" ++ r ->
      confidence (parse_verdict ai_analysis) = strip r).
Proof. exact (parse_single_line ai_analysis). Qed.

Lemma single_line_missing_reasoning_witness :
  reasoning (parse_verdict "I cannot tell.") = "AI response missing reasoning."
  /\ confidence (parse_verdict "I cannot tell.") = "None"
  /\ confidence (parse_verdict "CONFIDENCE: High") = "High"
  /\ reasoning (parse_verdict "CONFIDENCE: High") = "AI response missing reasoning.".
Proof.
  pose proof (single_line_missing_reasoning "I cannot tell." eq_refl) as (H1 & H2 & _).
  pose proof (single_line_missing_reasoning "CONFIDENCE: High" eq_refl) as (H3 & _ & H4).
  split; [exact H1 | split; [exact (H2 eq_refl) | split]].
  - exact (H4 " High" eq_refl).
  - exact H3.
Defined.

(** ** The classifier *)

Ltac run_monad :=
  unfold try_except, bind, ret, raise, log, emit,
    gen_model_generate_content, bq_client_query, bq_client_insert_rows_json, utcnow.

Ltac flatten_trace :=
  repeat rewrite <- app_assoc; cbn [app].

(** What a call of [analyze_with_ai] on a value that is no placeholder
    returns and records, by the outcome of the call of the model. *)
Lemma analyze_with_ai_run (env : Env) (code_snippet : string)
    (potential_secret_value : option string) (t : Trace) :
  is_placeholder potential_secret_value = false ->
  let prompt :=
    build_prompt (extract_context context_window code_snippet potential_secret_value)
                 potential_secret_value in
  analyze_with_ai env code_snippet potential_secret_value t
  = match generate_content env (List.length (model_calls t)) prompt with
    | GenReturns response =>
        let analysis_text := analysis_text_of response in
        if negb (contains "CONFIDENCE:" analysis_text)
           || negb (contains "REASONING:" analysis_text)
        then (Ok format_error_text,
              (t ++ [GenerateContent prompt;
                     Logged WARNING ("AI response format invalid: " ++ analysis_text)])%list)
        else (Ok analysis_text, (t ++ [GenerateContent prompt])%list)
    | GenRaises e =>
        (Ok (if contains "Quota" (exc_str e) then quota_text
             else communication_error_text),
         (t ++ [GenerateContent prompt;
                Logged ERROR ("Error communicating with Vertex AI: " ++ exc_str e)])%list)
    end.
Proof.
  intros H prompt. unfold analyze_with_ai. rewrite H. fold prompt.
  run_monad.
  destruct (generate_content env (List.length (model_calls t)) prompt) as [response|e].
  - cbv zeta.
    destruct (negb (contains "CONFIDENCE:" (analysis_text_of response))
              || negb (contains "REASONING:" (analysis_text_of response)));
      flatten_trace; reflexivity.
  - destruct (contains "Quota" (exc_str e)); flatten_trace; reflexivity.
Qed.

(** The classifier never raises. *)
Lemma analyze_with_ai_returns (env : Env) (code_snippet : string)
    (potential_secret_value : option string) (t : Trace) :
  exists text evs,
    analyze_with_ai env code_snippet potential_secret_value t = (Ok text, (t ++ evs)%list)
    /\ sink_calls evs = [] /\ clock_reads evs = [].
Proof.
  destruct (is_placeholder potential_secret_value) eqn:H.
  - unfold analyze_with_ai. rewrite H. run_monad. cbv beta iota.
    eexists _, [_]. repeat split.
  - rewrite (analyze_with_ai_run env code_snippet potential_secret_value t H). cbv zeta.
    destruct (generate_content _ _ _) as [response|e].
    + destruct (negb _ || negb _); eexists _, _; repeat split.
    + eexists _, _. repeat split.
Qed.

(** C6: when the call of the model raises, [analyze_with_ai] itself
    returns: the text "CONFIDENCE: None" / "REASONING: Vertex AI quota
    exceeded during analysis." when the error message contains "Quota",
    and "CONFIDENCE: None" / "REASONING: Error during AI analysis
    communication." otherwise.  The first line of either text is
    "CONFIDENCE: None". *)
Theorem classifier_failure_degrades (env : Env) (code_snippet : string)
    (potential_secret_value : option string) (t : Trace) (e : Exc) :
  is_placeholder potential_secret_value = false ->
  generate_content env (List.length (model_calls t))
    (build_prompt (extract_context context_window code_snippet potential_secret_value)
                  potential_secret_value)
  = GenRaises e ->
  exists text,
    fst (analyze_with_ai env code_snippet potential_secret_value t) = Ok text
    /\ text = (if contains "Quota" (exc_str e)
               then "CONFIDENCE: None" ++ nl
                    ++ "REASONING: Vertex AI quota exceeded during analysis."
               else "CONFIDENCE: None" ++ nl
                    ++ "REASONING: Error during AI analysis communication.")
    /\ nth 0 (split "010" text) EmptyString = "CONFIDENCE: None"
    /\ confidence (parse_verdict text) = "None".
Proof.
  intros H Hgen.
  rewrite (analyze_with_ai_run env code_snippet potential_secret_value t H).
  cbv zeta. rewrite Hgen. cbn [fst].
  eexists. split; [reflexivity|].
  destruct (contains "Quota" (exc_str e)); repeat split.
Qed.

Lemma classifier_failure_degrades_witness :
  exists text,
    fst (analyze_with_ai
           (constant_env (GenRaises {| exc_class := OtherException;
                                       exc_str := "429 Quota exceeded for model" |})
                         (returns_rows []) (InsertReturns []))
           "api_key = AbCdEf1234567890XyZ" (Some "AbCdEf1234567890XyZ") [])
    = Ok text
    /\ text = (if contains "Quota" "429 Quota exceeded for model"
               then "CONFIDENCE: None" ++ nl
                    ++ "REASONING: Vertex AI quota exceeded during analysis."
               else "CONFIDENCE: None" ++ nl
                    ++ "REASONING: Error during AI analysis communication.")
    /\ nth 0 (split "010" text) EmptyString = "CONFIDENCE: None"
    /\ confidence (parse_verdict text) = "None".
Proof.
  apply (classifier_failure_degrades
           (constant_env (GenRaises {| exc_class := OtherException;
                                       exc_str := "429 Quota exceeded for model" |})
                         (returns_rows []) (InsertReturns []))
           "api_key = AbCdEf1234567890XyZ" (Some "AbCdEf1234567890XyZ") []
           {| exc_class := OtherException; exc_str := "429 Quota exceeded for model" |});
    reflexivity.
Defined.

(** C1 (as the code has it): the format-error verdict comes from the
    classifier, not from the parser.  When the text the model returned
    lacks "CONFIDENCE:" or lacks "REASONING:" (the empty text lacks both),
    [analyze_with_ai] returns "CONFIDENCE: Low" / "REASONING: AI response
    format error.", which the parser reads as the confidence "Low" and the
    reasoning "AI response format error.".  The parser, on a text whose
    first line does not start with "CONFIDENCE:", leaves the confidence at
    "None"; and it never raises. *)
Theorem format_error_from_classifier :
  (forall (env : Env) (code_snippet : string) (potential_secret_value : option string)
          (t : Trace) (response : Response),
      is_placeholder potential_secret_value = false ->
      generate_content env (List.length (model_calls t))
        (build_prompt (extract_context context_window code_snippet potential_secret_value)
                      potential_secret_value)
      = GenReturns response ->
      contains "CONFIDENCE:" (analysis_text_of response) = false
      \/ contains "REASONING:" (analysis_text_of response) = false ->
      exists text,
        fst (analyze_with_ai env code_snippet potential_secret_value t) = Ok text
        /\ text = "CONFIDENCE: Low" ++ nl ++ "REASONING: AI response format error."
        /\ parse_verdict text
           = {| confidence := "Low"; reasoning := "AI response format error." |})
  /\ (forall ai_analysis : string,
        startswith (nth 0 (split "010" (strip ai_analysis)) EmptyString) "CONFIDENCE:"
        = false ->
        confidence (parse_verdict ai_analysis) = "None")
  /\ (forall ai_analysis : string, snd (parse_try ai_analysis) = None).
Proof.
  split; [|split; [exact parse_confidence_default | exact parse_never_raises]].
  intros env code_snippet v t response H Hgen Hbad.
  rewrite (analyze_with_ai_run env code_snippet v t H).
  cbv zeta. rewrite Hgen.
  assert (negb (contains "CONFIDENCE:" (analysis_text_of response))
          || negb (contains "REASONING:" (analysis_text_of response)) = true) as ->.
  { destruct Hbad as [-> | ->]; [reflexivity | apply orb_true_r]. }
  cbn [fst]. eexists. repeat split.
Qed.

Lemma format_error_from_classifier_witness :
  exists text,
    fst (analyze_with_ai
           (constant_env (says "This value looks random enough to be a real key.")
                         (returns_rows []) (InsertReturns []))
           "api_key = AbCdEf1234567890XyZ" (Some "AbCdEf1234567890XyZ") [])
    = Ok text
    /\ text = "CONFIDENCE: Low" ++ nl ++ "REASONING: AI response format error."
    /\ parse_verdict text
       = {| confidence := "Low"; reasoning := "AI response format error." |}.
Proof.
  apply (proj1 format_error_from_classifier
           (constant_env (says "This value looks random enough to be a real key.")
                         (returns_rows []) (InsertReturns []))
           "api_key = AbCdEf1234567890XyZ" (Some "AbCdEf1234567890XyZ") []
           {| parts0_text := Some "This value looks random enough to be a real key.";
              text_attr := None;
              response_str := "This value looks random enough to be a real key." |});
    [reflexivity | reflexivity | left; reflexivity].
Defined.

(** C1, as the claim states it: a text whose first line does not start
    with "CONFIDENCE:" passes the classifier when it has both markers
    further down, and the parser reads it as the confidence "None" and the
    reasoning "Parsing error"; the parser reads the empty text as "None"
    and "AI response missing reasoning.".  Neither verdict is "Low" with
    "AI response format error.". *)
Lemma malformed_first_line_is_not_format_error :
  startswith (nth 0 (split "010" (strip ("Sure!" ++ nl ++ "CONFIDENCE: High" ++ nl
                                          ++ "REASONING: x"))) EmptyString)
             "CONFIDENCE:" = false
  /\ fst (analyze_with_ai
            (constant_env (says ("Sure!" ++ nl ++ "CONFIDENCE: High" ++ nl ++ "REASONING: x"))
                          (returns_rows []) (InsertReturns []))
            "api_key = AbCdEf1234567890XyZ" (Some "AbCdEf1234567890XyZ") [])
     = Ok ("Sure!" ++ nl ++ "CONFIDENCE: High" ++ nl ++ "REASONING: x")
  /\ parse_verdict ("Sure!" ++ nl ++ "CONFIDENCE: High" ++ nl ++ "REASONING: x")
     = {| confidence := "None"; reasoning := "Parsing error" |}
  /\ parse_verdict EmptyString
     = {| confidence := "None"; reasoning := "AI response missing reasoning." |}
  /\ parse_verdict ("Sure!" ++ nl ++ "CONFIDENCE: High" ++ nl ++ "REASONING: x")
     <> {| confidence := "Low"; reasoning := "AI response format error." |}
  /\ parse_verdict EmptyString
     <> {| confidence := "Low"; reasoning := "AI response format error." |}.
Proof. repeat split; discriminate. Qed.

(** ** The confidence gate *)

Lemma gate_iff (c : string) :
  gate c = true <-> eq_ignoring_case c "high" \/ eq_ignoring_case c "medium".
Proof.
  unfold gate, eq_ignoring_case. cbn [existsb].
  rewrite orb_false_r, orb_true_iff, !String.eqb_eq.
  change (lower "high") with "high". change (lower "medium") with "medium".
  reflexivity.
Qed.

(** What lines 199 to 210 return and record. *)
Lemma collect_run (env : Env) (st : LoopState) (repo_name file_path : PyVal)
    (potential_secret_value : string) (v : Verdict) (t : Trace) :
  collect env st repo_name file_path potential_secret_value v t
  = if gate (confidence v) then
      (Ok {| count := count st + 1;
             processed_count := processed_count st;
             rows_to_insert :=
               (rows_to_insert st
                ++ [{| repo_name := repo_name;
                       file_path := file_path;
                       secret_snippet := slice potential_secret_value 0 1024;
                       ai_confidence := confidence v;
                       ai_reasoning := slice (reasoning v) 0 1024;
                       scan_timestamp :=
                         utcnow_isoformat env (List.length (clock_reads t)) ++ "Z" |}])%list |},
       (t ++ [UtcNow;
              Logged INFO ("Row " ++ str_nat (processed_count st)
                           ++ ": Added potential leak #" ++ str_nat (count st + 1)
                           ++ " from " ++ where_ repo_name file_path
                           ++ " for BQ insertion.")])%list)
    else (Ok st, t).
Proof.
  unfold collect. destruct (gate (confidence v)); [|reflexivity].
  run_monad. flatten_trace. reflexivity.
Qed.

(** C5: a verdict adds a finding to the batch exactly when its confidence
    is "high" or "medium", letter case ignored; otherwise the loop state
    and the trace are left as they were.  The decision depends on the
    confidence alone: two verdicts with the same confidence are both
    accepted or both rejected, whatever the row, the state, the trace and
    the outside world. *)
Theorem gate_accepts_high_and_medium (env : Env) (st : LoopState)
    (repo_name file_path : PyVal) (potential_secret_value : string) (v : Verdict)
    (t : Trace) :
  (finding_added st (collect env st repo_name file_path potential_secret_value v t)
   <-> eq_ignoring_case (confidence v) "high"
       \/ eq_ignoring_case (confidence v) "medium")
  /\ (~ (eq_ignoring_case (confidence v) "high"
         \/ eq_ignoring_case (confidence v) "medium")
      <-> collect env st repo_name file_path potential_secret_value v t = (Ok st, t))
  /\ (forall (env' : Env) (st' : LoopState) (repo_name' file_path' : PyVal)
             (potential_secret_value' : string) (v' : Verdict) (t' : Trace),
        confidence v' = confidence v ->
        (finding_added st' (collect env' st' repo_name' file_path'
                                    potential_secret_value' v' t')
         <-> finding_added st (collect env st repo_name file_path
                                       potential_secret_value v t))).
Proof.
  assert (Hadded : forall env st repo_name file_path potential_secret_value v t,
    finding_added st (collect env st repo_name file_path potential_secret_value v t)
    <-> gate (confidence v) = true).
  { clear. intros env st repo_name file_path secret v t.
    rewrite collect_run. unfold finding_added.
    destruct (gate (confidence v)); cbn [fst]; split; intro H; try reflexivity.
    - eexists _, _. split; reflexivity.
    - destruct H as (st' & f & [= <-] & H).
      apply (f_equal (@List.length Finding)) in H.
      rewrite length_app in H. simpl in H. lia.
    - discriminate. }
  split; [|split].
  - rewrite Hadded. apply gate_iff.
  - rewrite <- gate_iff, collect_run.
    destruct (gate (confidence v)); split; intro H.
    + now elim H.
    + apply (f_equal snd) in H. cbn [snd] in H.
      apply (f_equal (@List.length Event)) in H.
      rewrite length_app in H. simpl in H. lia.
    + reflexivity.
    + discriminate.
  - intros env' st' repo_name' file_path' secret' v' t' Hc.
    rewrite !Hadded. now rewrite Hc.
Qed.

(** ** The loop over the rows *)

Lemma sink_calls_app (a b : Trace) :
  sink_calls (a ++ b)%list = (sink_calls a ++ sink_calls b)%list.
Proof. apply filter_app. Qed.

Lemma model_calls_app (a b : Trace) :
  model_calls (a ++ b)%list = (model_calls a ++ model_calls b)%list.
Proof. apply filter_app. Qed.

(** The guard of line 169 holds for a value that is not a [str]. *)
Lemma not_a_str_unusable (field : option PyVal) :
  (forall s, field <> Some (PyStr s)) -> usable_str (getattr field PyNone) = None.
Proof.
  intros H. destruct field as [[|s|z]|]; try reflexivity.
  - now elim (H s).
  - unfold usable_str. cbn. now rewrite orb_true_r.
Qed.

(** A row without a usable secret is counted and skipped: the state moves
    by the count alone and the trace by one debug line. *)
Lemma process_row_skip (env : Env) (st : LoopState) (row : Row) (t : Trace) :
  usable_str (getattr (row_potential_secret row) PyNone) = None ->
  process_row env st row t
  = (Ok (counted st),
     (t ++ [Logged DEBUG
              ("Row " ++ str_nat (processed_count st + 1)
               ++ ": No valid potential_secret found for "
               ++ where_ (getattr (row_repo_name row) (PyStr "N/A"))
                         (getattr (row_path row) (PyStr "N/A"))
               ++ ". Skipping.")])%list).
Proof. intros H. unfold process_row. cbv zeta. rewrite H. reflexivity. Qed.

(** The body of the loop never raises, counts its row, and does not call
    the sink. *)
Lemma process_row_returns (env : Env) (st : LoopState) (row : Row) (t : Trace) :
  exists st' evs added,
    process_row env st row t = (Ok st', (t ++ evs)%list)
    /\ processed_count st' = processed_count st + 1
    /\ sink_calls evs = []
    /\ rows_to_insert st' = (rows_to_insert st ++ added)%list
    /\ count st' = count st + List.length added.
Proof.
  destruct (usable_str (getattr (row_potential_secret row) PyNone)) as [secret|] eqn:Hs.
  2:{ rewrite (process_row_skip env st row t Hs). eexists (counted st), [_], [].
      cbn [rows_to_insert count counted List.length].
      rewrite app_nil_r, Nat.add_0_r. repeat split. }
  unfold process_row. cbv zeta. rewrite Hs.
  assert (Hbody : forall content t0 evs0,
    sink_calls evs0 = [] -> t0 = (t ++ evs0)%list ->
    exists st' evs added,
      (ai_analysis <- analyze_with_ai env content (Some secret) ;;
       log DEBUG (("Row " ++ str_nat (processed_count st + 1)) ++ ": AI Analysis result:"
                  ++ nl ++ ai_analysis) ;;
       match snd (parse_try ai_analysis) with
       | Some e => log WARNING ("Error parsing AI response: " ++ exc_str e
                                ++ ". Raw: " ++ ai_analysis)
       | None => ret tt
       end ;;
       log INFO (("Row " ++ str_nat (processed_count st + 1)) ++ ": AI Confidence: "
                 ++ confidence (parse_verdict ai_analysis) ++ " for "
                 ++ where_ (getattr (row_repo_name row) (PyStr "N/A"))
                           (getattr (row_path row) (PyStr "N/A"))) ;;
       collect env (counted st)
         (getattr (row_repo_name row) (PyStr "N/A"))
         (getattr (row_path row) (PyStr "N/A")) secret (parse_verdict ai_analysis)) t0
      = (Ok st', (t ++ evs)%list)
      /\ processed_count st' = processed_count st + 1
      /\ sink_calls evs = []
      /\ rows_to_insert st' = (rows_to_insert st ++ added)%list
      /\ count st' = count st + List.length added).
  { intros content t0 evs0 Hevs0 ->.
    destruct (analyze_with_ai_returns env content (Some secret) (t ++ evs0)%list)
      as (text & evs1 & Hrun & Hevs1 & _).
    unfold bind at 1. rewrite Hrun.
    rewrite parse_never_raises. run_monad. rewrite collect_run.
    destruct (gate (confidence (parse_verdict text))); flatten_trace.
    - eexists _, _, [_]. split; [reflexivity|]. split; [reflexivity|].
      split; [|split; reflexivity].
      rewrite !sink_calls_app, Hevs0, Hevs1. reflexivity.
    - eexists _, _, []. split; [reflexivity|]. split; [reflexivity|].
      split; [|split; cbn; [now rewrite app_nil_r | now rewrite Nat.add_0_r]].
      rewrite !sink_calls_app, Hevs0, Hevs1. reflexivity. }
  destruct (usable_str (getattr (row_content row) PyNone)) as [content|].
  - unfold bind at 1, ret at 1. unfold bind at 1, log at 1, emit at 1.
    eapply (Hbody content); cycle 1; [reflexivity | reflexivity].
  - unfold bind at 1. unfold bind at 1, log at 1, emit at 1, ret at 1.
    unfold bind at 1, log at 1, emit at 1.
    eapply (Hbody EmptyString); cycle 1; [flatten_trace; reflexivity | reflexivity].
Qed.

Lemma for_rows_returns (env : Env) (l : list Row) :
  forall (st : LoopState) (t : Trace),
  exists st' evs added,
    for_rows env st l t = (Ok st', (t ++ evs)%list)
    /\ processed_count st' = processed_count st + List.length l
    /\ sink_calls evs = []
    /\ rows_to_insert st' = (rows_to_insert st ++ added)%list
    /\ count st' = count st + List.length added.
Proof.
  induction l as [|row l IH]; intros st t.
  - exists st, [], []. cbn. rewrite !app_nil_r, !Nat.add_0_r. repeat split.
  - destruct (process_row_returns env st row t)
      as (st1 & evs1 & added1 & H1 & Hp1 & Hs1 & Hr1 & Hc1).
    destruct (IH st1 (t ++ evs1)%list)
      as (st2 & evs2 & added2 & H2 & Hp2 & Hs2 & Hr2 & Hc2).
    exists st2, (evs1 ++ evs2)%list, (added1 ++ added2)%list.
    cbn [for_rows]. unfold bind. rewrite H1, H2.
    rewrite !app_assoc, sink_calls_app, Hs1, Hs2, length_app. cbn [List.length].
    rewrite Hr2, Hr1, Hc2, Hc1, Hp2, Hp1.
    repeat split; lia.
Qed.

(** The sink does not enter the loop. *)
Lemma for_rows_with_sink (env : Env) (sink : list Finding -> InsertOutcome)
    (l : list Row) :
  forall (st : LoopState) (t : Trace),
    for_rows (with_sink env sink) st l t = for_rows env st l t.
Proof.
  induction l as [|row l IH]; intros st t; [reflexivity|].
  cbn [for_rows]. unfold bind.
  change (process_row (with_sink env sink) st row t) with (process_row env st row t).
  destruct (process_row env st row t) as [[st'|e] t']; [apply IH | reflexivity].
Qed.

(** ** The sink *)

Lemma for_each_log (errors : list InsertError) (f : InsertError -> string) (t : Trace) :
  for_each errors (fun d => log ERROR (f d)) t
  = (Ok tt, (t ++ map (fun d => Logged ERROR (f d)) errors)%list).
Proof.
  revert t; induction errors as [|d errors IH]; intros t.
  - cbn. now rewrite app_nil_r.
  - cbn [for_each map]. run_monad. rewrite IH. flatten_trace. reflexivity.
Qed.

(** [log_to_bigquery] never raises, and calls the sink only on a batch
    that is not empty. *)
Lemma log_to_bigquery_returns (env : Env) (batch : list Finding) (t : Trace) :
  exists evs,
    log_to_bigquery env batch t = (Ok tt, (t ++ evs)%list)
    /\ (batch = [] -> sink_calls evs = []).
Proof.
  destruct batch as [|f batch].
  - eexists [_]. split; reflexivity.
  - unfold log_to_bigquery. unfold try_except, bind at 1, bq_client_insert_rows_json.
    destruct (insert_rows_json env (f :: batch)) as [[|d errors]|e].
    + run_monad. flatten_trace. eexists. split; [reflexivity | discriminate].
    + rewrite for_each_log. flatten_trace. eexists. split; [reflexivity | discriminate].
    + run_monad. flatten_trace. eexists. split; [reflexivity | discriminate].
Qed.

(** ** The entry point *)

(** A run whose query returns and whose iterator ends without an
    exception. *)
Lemma hunt_run (env : Env) (t : Trace) (results : RowIterator) (st : LoopState)
    (t1 t2 : Trace) :
  run_query env HUNT_QUERY = QueryReturns results ->
  iter_raises results = None ->
  for_rows env initial_state (rows results) (trace_at_loop t results) = (Ok st, t1) ->
  log_to_bigquery env (rows_to_insert st) t1 = (Ok tt, t2) ->
  hunt_and_analyze env t
  = (Ok (final_message (processed_count st) (List.length (rows_to_insert st)), 200),
     (t2 ++ [Logged INFO (final_message (processed_count st)
                                        (List.length (rows_to_insert st)))])%list).
Proof.
  intros Hq Hiter Hfor Hlog.
  unfold trace_at_loop, initial_state in Hfor.
  unfold hunt_and_analyze, iterate. run_monad. rewrite Hq. flatten_trace.
  rewrite Hfor, Hiter, Hlog. reflexivity.
Qed.

(** C7: when the query raises a permission error the entry point returns
    the body "Permission Error: " followed by the error and the status
    500; when it raises a malformed-query error the body is "Bad Query
    Error: " followed by the error, the status is 500, and the text of the
    query is logged.  In both runs the trace ends with the error lines: no
    row is processed, the model is not called and the sink is not called.
    The two bodies are never the same. *)
Theorem query_failure_aborts (env : Env) (t : Trace) (e : Exc) :
  run_query env HUNT_QUERY = QueryRaises e ->
  (exc_class e = Forbidden ->
   hunt_and_analyze env t
   = (Ok ("Permission Error: " ++ exc_str e, 500),
      (t ++ [Logged INFO "Cloud Function execution started.";
             Logged INFO "Starting BigQuery hunt query...";
             BqQuery HUNT_QUERY;
             Logged ERROR ("Permission error during BigQuery job execution: "
                           ++ exc_str e)])%list))
  /\ (exc_class e = BadRequest ->
      hunt_and_analyze env t
      = (Ok ("Bad Query Error: " ++ exc_str e, 500),
         (t ++ [Logged INFO "Cloud Function execution started.";
                Logged INFO "Starting BigQuery hunt query...";
                BqQuery HUNT_QUERY;
                Logged ERROR ("Bad Request/Query Syntax error during BigQuery job execution: "
                              ++ exc_str e);
                Logged ERROR ("Failing Query:" ++ nl ++ "---" ++ nl ++ HUNT_QUERY
                              ++ nl ++ "---")])%list))
  /\ model_calls (snd (hunt_and_analyze env t)) = model_calls t
  /\ sink_calls (snd (hunt_and_analyze env t)) = sink_calls t
  /\ (forall m m' : string, "Permission Error: " ++ m <> "Bad Query Error: " ++ m').
Proof.
  intros Hq.
  assert (Hrun : hunt_and_analyze env t
    = match exc_class e with
      | Forbidden =>
          (Ok ("Permission Error: " ++ exc_str e, 500),
           (t ++ [Logged INFO "Cloud Function execution started.";
                  Logged INFO "Starting BigQuery hunt query...";
                  BqQuery HUNT_QUERY;
                  Logged ERROR ("Permission error during BigQuery job execution: "
                                ++ exc_str e)])%list)
      | BadRequest =>
          (Ok ("Bad Query Error: " ++ exc_str e, 500),
           (t ++ [Logged INFO "Cloud Function execution started.";
                  Logged INFO "Starting BigQuery hunt query...";
                  BqQuery HUNT_QUERY;
                  Logged ERROR ("Bad Request/Query Syntax error during BigQuery job execution: "
                                ++ exc_str e);
                  Logged ERROR ("Failing Query:" ++ nl ++ "---" ++ nl ++ HUNT_QUERY
                                ++ nl ++ "---")])%list)
      | OtherException =>
          (Ok ("Error during execution: " ++ exc_str e, 500),
           (t ++ [Logged INFO "Cloud Function execution started.";
                  Logged INFO "Starting BigQuery hunt query...";
                  BqQuery HUNT_QUERY;
                  Logged ERROR ("Critical error during function execution: "
                                ++ exc_str e)])%list)
      end).
  { unfold hunt_and_analyze. run_monad. rewrite Hq.
    destruct (exc_class e); flatten_trace; reflexivity. }
  rewrite Hrun. repeat split.
  - intros ->. reflexivity.
  - intros ->. reflexivity.
  - destruct (exc_class e); cbn [snd]; rewrite model_calls_app; cbn; apply app_nil_r.
  - destruct (exc_class e); cbn [snd]; rewrite sink_calls_app; cbn; apply app_nil_r.
  - intros m m' H. discriminate H.
Qed.

Lemma query_failure_aborts_witness :
  hunt_and_analyze
    (query_fails_env {| exc_class := Forbidden; exc_str := "403 Access Denied" |}) []
  = (Ok ("Permission Error: " ++ "403 Access Denied", 500),
     ([] ++ [Logged INFO "Cloud Function execution started.";
             Logged INFO "Starting BigQuery hunt query...";
             BqQuery HUNT_QUERY;
             Logged ERROR ("Permission error during BigQuery job execution: "
                           ++ "403 Access Denied")])%list)
  /\ hunt_and_analyze
       (query_fails_env {| exc_class := BadRequest; exc_str := "400 Syntax error" |}) []
     = (Ok ("Bad Query Error: " ++ "400 Syntax error", 500),
        ([] ++ [Logged INFO "Cloud Function execution started.";
                Logged INFO "Starting BigQuery hunt query...";
                BqQuery HUNT_QUERY;
                Logged ERROR ("Bad Request/Query Syntax error during BigQuery job execution: "
                              ++ "400 Syntax error");
                Logged ERROR ("Failing Query:" ++ nl ++ "---" ++ nl ++ HUNT_QUERY
                              ++ nl ++ "---")])%list).
Proof.
  split.
  - apply (proj1 (query_failure_aborts
                    (query_fails_env {| exc_class := Forbidden;
                                        exc_str := "403 Access Denied" |})
                    [] {| exc_class := Forbidden; exc_str := "403 Access Denied" |}
                    eq_refl)).
    reflexivity.
  - apply (proj1 (proj2 (query_failure_aborts
                    (query_fails_env {| exc_class := BadRequest;
                                        exc_str := "400 Syntax error" |})
                    [] {| exc_class := BadRequest; exc_str := "400 Syntax error" |}
                    eq_refl))).
    reflexivity.
Defined.

(** C8: when the query returns and the iteration ends normally, the entry
    point returns the summary of the number of rows and of the number of
    accepted findings, with the status 200, whatever the sink answers:
    another sink, failing in part or in whole, gives the same result.
    The counter of accepted findings is the length of the batch.  With no
    accepted finding the sink is not called at all; ten rows with no
    accepted finding give "Scan complete. Processed 10 candidates.
    Found and logged 0 high/medium-confidence leaks." and 200. *)
Theorem result_independent_of_sink (env : Env) (t : Trace) (results : RowIterator) :
  run_query env HUNT_QUERY = QueryReturns results ->
  iter_raises results = None ->
  exists st : LoopState,
    fst (for_rows env initial_state (rows results) (trace_at_loop t results)) = Ok st
    /\ processed_count st = List.length (rows results)
    /\ count st = List.length (rows_to_insert st)
    /\ fst (hunt_and_analyze env t)
       = Ok (final_message (List.length (rows results))
                           (List.length (rows_to_insert st)), 200)
    /\ (forall sink : list Finding -> InsertOutcome,
          fst (hunt_and_analyze (with_sink env sink) t) = fst (hunt_and_analyze env t))
    /\ (rows_to_insert st = [] ->
        sink_calls (snd (hunt_and_analyze env t)) = sink_calls t)
    /\ (List.length (rows results) = 10 -> rows_to_insert st = [] ->
        fst (hunt_and_analyze env t)
        = Ok ("Scan complete. Processed 10 candidates. Found and logged 0 high/medium-confidence leaks.",
              200)).
Proof.
  intros Hq Hiter.
  destruct (for_rows_returns env (rows results) initial_state (trace_at_loop t results))
    as (st & evs & added & Hfor & Hcount & Hsink & Hrows & Hacc).
  cbn [processed_count count rows_to_insert initial_state Nat.add app] in Hcount, Hrows, Hacc.
  destruct (log_to_bigquery_returns env (rows_to_insert st)
              (trace_at_loop t results ++ evs)%list) as (evs' & Hlog & Hsink').
  pose proof (hunt_run env t results st _ _ Hq Hiter Hfor Hlog) as Hrun.
  exists st. rewrite Hfor, Hrun, Hcount. cbn [fst snd].
  split; [reflexivity|]. split; [reflexivity|]. split; [now rewrite Hrows, Hacc|].
  split; [reflexivity|]. split; [|split].
  - intros sink.
    destruct (log_to_bigquery_returns (with_sink env sink) (rows_to_insert st)
                (trace_at_loop t results ++ evs)%list) as (evs'' & Hlog'' & _).
    assert (Hfor'' : for_rows (with_sink env sink) initial_state (rows results)
                       (trace_at_loop t results)
                     = (Ok st, (trace_at_loop t results ++ evs)%list))
      by (rewrite for_rows_with_sink; exact Hfor).
    rewrite (hunt_run (with_sink env sink) t results st _ _ Hq Hiter Hfor'' Hlog'').
    cbn [fst]. now rewrite Hcount.
  - intros Hnone. unfold trace_at_loop.
    rewrite !sink_calls_app, Hsink, (Hsink' Hnone). cbn. now rewrite !app_nil_r.
  - intros Hten ->. rewrite Hten. reflexivity.
Qed.

Lemma result_independent_of_sink_witness :
  fst (hunt_and_analyze ten_rejected_env [])
  = Ok ("Scan complete. Processed 10 candidates. Found and logged 0 high/medium-confidence leaks.",
        200)
  /\ sink_calls (snd (hunt_and_analyze ten_rejected_env [])) = sink_calls []
  /\ fst (hunt_and_analyze (with_sink ten_rejected_env (fun _ => InsertReturns [])) [])
     = fst (hunt_and_analyze ten_rejected_env []).
Proof.
  destruct (result_independent_of_sink ten_rejected_env [] ten_candidates eq_refl eq_refl)
    as (st & Hloop & _ & _ & _ & Hsame & Hnone & Hten).
  vm_compute in Hloop.
  assert (Hst : rows_to_insert st = []) by (injection Hloop as <-; reflexivity).
  split; [exact (Hten eq_refl Hst) | split; [exact (Hnone Hst) | apply Hsame]].
Defined.

(** C10: the loop returns for every list of rows, and its count of
    processed rows grows by the number of rows, good or bad.  A row whose
    [potential_secret] is missing, [None] or not a [str] is counted and
    skipped: the only thing recorded for it is one debug line (no call of
    the model, no verdict), the findings are left as they were, and the
    loop goes on with the rows that follow. *)
Theorem every_row_counted (env : Env) (st : LoopState) (l : list Row) (t : Trace) :
  (exists st' t',
     for_rows env st l t = (Ok st', t')
     /\ processed_count st' = processed_count st + List.length l)
  /\ (forall (row : Row) (rest : list Row),
        (forall s, row_potential_secret row <> Some (PyStr s)) ->
        exists msg,
          process_row env st row t = (Ok (counted st), (t ++ [Logged DEBUG msg])%list)
          /\ rows_to_insert (counted st) = rows_to_insert st
          /\ processed_count (counted st) = processed_count st + 1
          /\ model_calls (t ++ [Logged DEBUG msg])%list = model_calls t
          /\ for_rows env st (row :: rest) t
             = for_rows env (counted st) rest (t ++ [Logged DEBUG msg])%list).
Proof.
  split.
  - destruct (for_rows_returns env l st t) as (st' & evs & added & H & Hc & _).
    now exists st', (t ++ evs)%list.
  - intros row rest Hrow.
    pose proof (process_row_skip env st row t (not_a_str_unusable _ Hrow)) as Hskip.
    eexists. split; [exact Hskip|]. split; [reflexivity|]. split; [reflexivity|].
    split.
    + rewrite model_calls_app. cbn. apply app_nil_r.
    + cbn [for_rows]. unfold bind. now rewrite Hskip.
Qed.

Lemma every_row_counted_witness :
  exists msg,
    process_row offline_env initial_state bare_row []
    = (Ok (counted initial_state), ([] ++ [Logged DEBUG msg])%list)
    /\ rows_to_insert (counted initial_state) = rows_to_insert initial_state
    /\ processed_count (counted initial_state) = processed_count initial_state + 1
    /\ model_calls ([] ++ [Logged DEBUG msg])%list = model_calls []
    /\ for_rows offline_env initial_state
         [bare_row; candidate "r1" "cfg.yaml" "key: AbCdEf1234567890XyZ" "AbCdEf1234567890XyZ"] []
       = for_rows offline_env (counted initial_state)
           [candidate "r1" "cfg.yaml" "key: AbCdEf1234567890XyZ" "AbCdEf1234567890XyZ"]
           ([] ++ [Logged DEBUG msg])%list.
Proof.
  apply (proj2 (every_row_counted offline_env initial_state [] [])).
  intros s. discriminate.
Defined.

(** * Further properties of the code *)

(** ** More on strings *)

Lemma length_substring (s : string) (n m : nat) :
  length (substring n m s) = Nat.min m (length s - n).
Proof.
  revert n m; induction s as [|c s IH]; intros n m.
  - destruct n, m; reflexivity.
  - destruct n as [|n].
    + destruct m as [|m]; [reflexivity|]. simpl. now rewrite IH, Nat.sub_0_r.
    + simpl. apply IH.
Qed.

Lemma substring_prefix (s : string) (m : nat) :
  exists r, s = substring 0 m s ++ r.
Proof.
  revert m; induction s as [|c s IH]; intros m.
  - exists EmptyString. now destruct m.
  - destruct m as [|m]; simpl.
    + now exists (String c s).
    + destruct (IH m) as [r Hr]. exists r. now rewrite <- Hr.
Qed.

Lemma substring_split (s : string) (n : nat) :
  n <= length s -> s = substring 0 n s ++ substring n (length s - n) s.
Proof.
  revert n; induction s as [|c s IH]; intros n H.
  - simpl in H. assert (n = 0) as -> by lia. reflexivity.
  - destruct n as [|n].
    + cbn [substring append]. rewrite Nat.sub_0_r.
      change (length (String c s)) with (S (length s)). cbn [substring].
      now rewrite substring_all.
    + simpl in *. f_equal. apply IH. lia.
Qed.

(** Where [find] answers, the text is there, and nowhere before. *)
Lemma find_some_split (sub s : string) (i : nat) :
  find sub s = Some i -> exists pre post, s = pre ++ sub ++ post /\ length pre = i.
Proof.
  revert i; induction s as [|c s IH]; intros i; rewrite find_eq;
    destruct (prefix sub _) eqn:E.
  - intros [= <-]. destruct (prefix_split _ _ E) as [r Hr].
    now exists EmptyString, r.
  - discriminate.
  - intros [= <-]. destruct (prefix_split _ _ E) as [r Hr].
    now exists EmptyString, r.
  - destruct (find sub s) as [j|]; [|discriminate].
    intros [= <-]. destruct (IH j eq_refl) as (pre & post & -> & <-).
    now exists (String c pre), post.
Qed.

Lemma contains_split (sub s : string) :
  contains sub s = true <-> exists a b, s = a ++ sub ++ b.
Proof.
  split.
  - unfold contains. destruct (find sub s) as [i|] eqn:E; [|discriminate].
    intros _. destruct (find_some_split _ _ _ E) as (a & b & H & _). now exists a, b.
  - intros (a & b & ->). apply contains_occurrence.
Qed.

Lemma lower_split (s x y : string) :
  lower s = x ++ y -> exists a b, s = a ++ b /\ lower a = x /\ lower b = y.
Proof.
  revert s; induction x as [|c x IH]; intros s H.
  - now exists EmptyString, s.
  - destruct s as [|d s]; [discriminate|]. cbn in H. injection H as Hc Hs.
    destruct (IH _ Hs) as (a & b & -> & <- & <-).
    exists (String d a), b. cbn. now rewrite Hc.
Qed.

Lemma endswith_split (s suf : string) :
  endswith s suf = true <-> exists r, s = r ++ suf.
Proof.
  split.
  - unfold endswith, slice. intros H. apply andb_prop in H as [Hle Heq].
    apply Nat.leb_le in Hle. apply String.eqb_eq in Heq.
    exists (substring 0 (length s - length suf) s).
    assert (Hk : length s - length suf <= length s) by lia.
    remember (length s - length suf) as k eqn:Ek. clear Ek Hle.
    rewrite <- Heq. now apply substring_split.
  - intros [r ->]. apply endswith_append.
Qed.

Lemma lstrip_idempotent (s : string) : lstrip (lstrip s) = lstrip s.
Proof.
  induction s as [|c s IH]; [reflexivity|].
  cbn [lstrip]. destruct (isspace c) eqn:E; [exact IH|].
  cbn [lstrip]. now rewrite E.
Qed.

Lemma rstrip_lstrip (s : string) : rstrip (lstrip s) = lstrip (rstrip s).
Proof.
  induction s as [|c s IH]; [reflexivity|].
  cbn [lstrip]. rewrite rstrip_cons. destruct (isspace c) eqn:E.
  - rewrite IH. destruct (rstrip s) as [|x y]; [reflexivity|].
    cbn [lstrip]. now rewrite E.
  - rewrite rstrip_cons.
    destruct (rstrip s) as [|x y]; [rewrite E|]; cbn [lstrip]; now rewrite E.
Qed.

(** [strip] leaves a stripped text as it is. *)
Lemma strip_idempotent (s : string) : strip (strip s) = strip s.
Proof.
  unfold strip. rewrite (rstrip_lstrip (rstrip s)), rstrip_idempotent.
  apply lstrip_idempotent.
Qed.

(** ** More on the placeholder filter *)

(** X1: the test of line 60 holds for the placeholder rules and for
    nothing else: a value is skipped exactly when it is absent, contains
    "example" or "test" in some letter case, starts with "YOUR_" or ends
    with "_HERE". *)
Theorem placeholder_filter_exact (potential_secret_value : option string) :
  is_placeholder potential_secret_value = true
  <-> placeholder_rule potential_secret_value.
Proof.
  split; [|apply placeholder_rule_detected].
  destruct potential_secret_value as [v|]; [|easy].
  unfold is_placeholder, placeholder_rule.
  assert (Hocc : forall word, contains word (lower v) = true ->
                              occurs_ignoring_case word v).
  { intros word H. apply contains_split in H as (a & b & H).
    apply lower_split in H as (a1 & r & -> & _ & H).
    apply lower_split in H as (m & b1 & -> & Hm & _).
    now exists a1, m, b1. }
  rewrite !orb_true_iff. intros [[[H|H]|H]|H].
  - left. now apply Hocc.
  - right; left. now apply Hocc.
  - right; right; left. now apply prefix_split.
  - right; right; right. now apply endswith_split.
Qed.

(** ** More on the context window *)

Lemma slice_from_start (s : string) (n : nat) : slice s 0 n = substring 0 n s.
Proof. unfold slice. now rewrite Nat.sub_0_r. Qed.

Lemma length_ellipsis (c : bool) :
  length (if c then "..." else EmptyString) <= 3.
Proof. destruct c; simpl; lia. Qed.

(** X2: the excerpt is never longer than the secret, a window on each
    side and two ellipses: with the window of the source, the secret and
    306 characters. *)
Theorem excerpt_length_bounded (w : nat) (code_snippet v : string) :
  exists excerpt,
    extract_context w code_snippet (Some v) = Some excerpt
    /\ length excerpt <= length v + 2 * w + 6.
Proof.
  unfold extract_context.
  destruct (truthy code_snippet && truthy v).
  2:{ exists v. split; [reflexivity | lia]. }
  destruct (find v code_snippet) as [i|].
  - cbv zeta. eexists. split; [reflexivity|].
    rewrite ellipsis_right, ellipsis_left, !length_append.
    unfold slice. rewrite length_substring.
    pose proof (length_ellipsis (0 <? Nat.max 0 (i - w))%nat).
    pose proof (length_ellipsis
      (Nat.min (length code_snippet) (i + length v + w) <? length code_snippet)%nat).
    lia.
  - eexists. split; [reflexivity|].
    rewrite length_append, slice_from_start, length_substring.
    change (length "...") with 3. lia.
Qed.

(** X3: when the secret occurs in the content, the excerpt shows it. *)
Theorem excerpt_shows_secret (w : nat) (code_snippet v : string) :
  contains v code_snippet = true ->
  exists excerpt,
    extract_context w code_snippet (Some v) = Some excerpt
    /\ contains v excerpt = true.
Proof.
  intros H. destruct (string_dec v EmptyString) as [->|Hv].
  - exists EmptyString. split; [|reflexivity].
    unfold extract_context. cbn [truthy String.eqb negb]. now rewrite andb_false_r.
  - unfold contains in H. destruct (find v code_snippet) as [i|] eqn:E; [|discriminate].
    destruct (find_some_split _ _ _ E) as (pre & post & -> & <-).
    rewrite (extract_context_window w pre v post Hv E).
    eexists. split; [reflexivity|].
    match goal with
    | |- contains v (?l ++ ?p ++ v ++ ?q) = true =>
        apply contains_split; exists (l ++ p), q; now rewrite append_assoc
    end.
Qed.

Lemma excerpt_shows_secret_witness :
  exists excerpt,
    extract_context 4 "api_key = AbCdEf1234567890XyZ # rotate" (Some "AbCdEf1234567890XyZ")
    = Some excerpt
    /\ contains "AbCdEf1234567890XyZ" excerpt = true.
Proof.
  apply (excerpt_shows_secret 4 "api_key = AbCdEf1234567890XyZ # rotate"
           "AbCdEf1234567890XyZ").
  reflexivity.
Defined.

(** ** More on the findings *)

(** X4: an accepted verdict appends one finding whose snippet is the
    first 1024 characters of the secret and whose reasoning is the first
    1024 characters of the verdict's reasoning: each is a prefix of the
    full text and is 1024 long when the full text is longer.  The
    repository, the path and the confidence are stored as they came, the
    confidence in the letter case the model used. *)
Theorem finding_fields_truncated (env : Env) (st : LoopState)
    (repo_name0 file_path0 : PyVal) (potential_secret_value : string) (v : Verdict)
    (t : Trace) :
  gate (confidence v) = true ->
  exists st' t' f,
    collect env st repo_name0 file_path0 potential_secret_value v t = (Ok st', t')
    /\ rows_to_insert st' = (rows_to_insert st ++ [f])%list
    /\ length (secret_snippet f) = Nat.min 1024 (length potential_secret_value)
    /\ (exists r, potential_secret_value = secret_snippet f ++ r)
    /\ length (ai_reasoning f) = Nat.min 1024 (length (reasoning v))
    /\ (exists r, reasoning v = ai_reasoning f ++ r)
    /\ repo_name f = repo_name0 /\ file_path f = file_path0
    /\ ai_confidence f = confidence v.
Proof.
  intros H. rewrite collect_run, H. eexists _, _, _.
  split; [reflexivity|]. split; [reflexivity|].
  cbn [secret_snippet ai_reasoning repo_name file_path ai_confidence].
  rewrite !slice_from_start, !length_substring, !Nat.sub_0_r.
  repeat split; apply substring_prefix.
Qed.

Lemma finding_fields_truncated_witness :
  exists st' t' f,
    collect offline_env initial_state (PyStr "r1") (PyStr "cfg.yaml")
      "AbCdEf1234567890XyZ"
      {| confidence := "HIGH"; reasoning := "Looks like a live password." |} []
    = (Ok st', t')
    /\ rows_to_insert st' = (rows_to_insert initial_state ++ [f])%list
    /\ length (secret_snippet f) = Nat.min 1024 (length "AbCdEf1234567890XyZ")
    /\ (exists r, "AbCdEf1234567890XyZ" = secret_snippet f ++ r)
    /\ length (ai_reasoning f) = Nat.min 1024 (length "Looks like a live password.")
    /\ (exists r, "Looks like a live password." = ai_reasoning f ++ r)
    /\ repo_name f = PyStr "r1" /\ file_path f = PyStr "cfg.yaml"
    /\ ai_confidence f = "HIGH".
Proof.
  apply (finding_fields_truncated offline_env initial_state (PyStr "r1") (PyStr "cfg.yaml")
           "AbCdEf1234567890XyZ"
           {| confidence := "HIGH"; reasoning := "Looks like a live password." |} []).
  reflexivity.
Defined.

(** ** More on the classifier *)

(** X5: whatever the model does (answers well, answers badly, raises),
    and whatever the value, [analyze_with_ai] returns, and the text it
    returns has both markers, "CONFIDENCE:" and "REASONING:". *)
Theorem classifier_output_has_markers (env : Env) (code_snippet : string)
    (potential_secret_value : option string) (t : Trace) :
  exists text,
    fst (analyze_with_ai env code_snippet potential_secret_value t) = Ok text
    /\ contains "CONFIDENCE:" text = true
    /\ contains "REASONING:" text = true.
Proof.
  destruct (is_placeholder potential_secret_value) eqn:H.
  - unfold analyze_with_ai. rewrite H. run_monad. cbn [fst].
    eexists. repeat split.
  - rewrite (analyze_with_ai_run env code_snippet potential_secret_value t H). cbv zeta.
    destruct (generate_content _ _ _) as [response|e].
    + destruct (negb (contains "CONFIDENCE:" (analysis_text_of response))
                || negb (contains "REASONING:" (analysis_text_of response))) eqn:E.
      * eexists. repeat split.
      * apply orb_false_elim in E as [E1 E2].
        apply negb_false_iff in E1, E2. eexists. repeat split; assumption.
    + destruct (contains "Quota" (exc_str e)); eexists; repeat split.
Qed.

Lemma prompt_shows_secret (contextual_snippet : option string) (v : string) :
  contains v (build_prompt contextual_snippet (Some v)) = true.
Proof.
  unfold build_prompt. cbn [fmt_opt].
  match goal with
  | |- contains v (?p1 ++ ?c ++ ?p2 ++ v ++ ?p3) = true =>
      apply contains_split; exists (p1 ++ c ++ p2), p3; now rewrite !append_assoc
  end.
Qed.

Lemma prompt_shows_excerpt (excerpt : string) (potential_secret_value : option string) :
  contains excerpt (build_prompt (Some excerpt) potential_secret_value) = true.
Proof.
  unfold build_prompt. cbn [fmt_opt].
  match goal with
  | |- contains excerpt (?p1 ++ excerpt ++ ?rest) = true =>
      apply contains_split; now exists p1, rest
  end.
Qed.

(** X6: a value that is no placeholder costs exactly one call of the
    model, whatever the call gives, and the prompt of that call carries
    the secret value in full and the excerpt of the content. *)
Theorem one_model_call_with_secret (env : Env) (code_snippet v : string) (t : Trace) :
  is_placeholder (Some v) = false ->
  exists prompt excerpt,
    model_calls (snd (analyze_with_ai env code_snippet (Some v) t))
    = (model_calls t ++ [GenerateContent prompt])%list
    /\ contains v prompt = true
    /\ extract_context context_window code_snippet (Some v) = Some excerpt
    /\ contains excerpt prompt = true.
Proof.
  intros H.
  destruct (excerpt_length_bounded context_window code_snippet v) as (excerpt & He & _).
  exists (build_prompt (Some excerpt) (Some v)), excerpt.
  rewrite (analyze_with_ai_run env code_snippet (Some v) t H). cbv zeta. rewrite He.
  split; [|split; [apply prompt_shows_secret | split; [reflexivity | apply prompt_shows_excerpt]]].
  destruct (generate_content _ _ _) as [response|e].
  - destruct (negb _ || negb _); cbn [snd]; rewrite model_calls_app; reflexivity.
  - cbn [snd]. rewrite model_calls_app. reflexivity.
Qed.

Lemma one_model_call_with_secret_witness :
  exists prompt excerpt,
    model_calls (snd (analyze_with_ai offline_env "api_key = AbCdEf1234567890XyZ"
                        (Some "AbCdEf1234567890XyZ") []))
    = (model_calls [] ++ [GenerateContent prompt])%list
    /\ contains "AbCdEf1234567890XyZ" prompt = true
    /\ extract_context context_window "api_key = AbCdEf1234567890XyZ"
         (Some "AbCdEf1234567890XyZ") = Some excerpt
    /\ contains excerpt prompt = true.
Proof.
  apply (one_model_call_with_secret offline_env "api_key = AbCdEf1234567890XyZ"
           "AbCdEf1234567890XyZ" []).
  reflexivity.
Defined.

(** ** More on the verdict parser *)

(** X7: the confidence and the reasoning of a parsed verdict carry no
    white space at their ends, whatever the text. *)
Theorem verdict_fields_stripped (ai_analysis : string) :
  strip (confidence (parse_verdict ai_analysis)) = confidence (parse_verdict ai_analysis)
  /\ strip (reasoning (parse_verdict ai_analysis)) = reasoning (parse_verdict ai_analysis).
Proof.
  rewrite parse_verdict_try. unfold parse_try. cbv zeta.
  set (lines := split "010" (strip ai_analysis)).
  destruct ((1 <=? List.length lines)%nat && startswith (nth 0 lines EmptyString) "CONFIDENCE:")
    eqn:E0;
  destruct ((2 <=? List.length lines)%nat && startswith (nth 1 lines EmptyString) "REASONING:")
    eqn:E1;
  try (apply andb_prop in E0 as [_ E0];
       destruct (item1_after_confidence _ E0) as (r & _ & ->));
  try (apply andb_prop in E1 as [_ E1];
       destruct (item1_after_reasoning _ E1) as (r' & _ & ->));
  try destruct (List.length lines =? 1)%nat;
  cbn [fst confidence reasoning]; split;
  try apply strip_idempotent; reflexivity.
Qed.

(** The parser reads the first two lines of the stripped text. *)
Lemma parse_lines (ai_analysis a b : string) (more : list string) :
  split "010" (strip ai_analysis) = ("CONFIDENCE:" ++ a) :: ("REASONING:" ++ b) :: more ->
  parse_verdict ai_analysis = {| confidence := strip a; reasoning := strip b |}.
Proof.
  intros H. rewrite parse_verdict_try. unfold parse_try. cbv zeta. rewrite H.
  cbn [nth List.length Nat.leb andb].
  destruct (confidence_line a) as [-> ->].
  destruct (reasoning_line b) as [-> ->].
  reflexivity.
Qed.

Lemma parse_verdict_strip (a b : string) :
  strip a = strip b -> parse_verdict a = parse_verdict b.
Proof. intros H. unfold parse_verdict, parse_try. now rewrite H. Qed.

Lemma lstrip_confidence (r : string) :
  lstrip ("CONFIDENCE: " ++ r) = "CONFIDENCE: " ++ r.
Proof. reflexivity. Qed.

(** X8: the parser reads two lines and no more: whatever follows the
    reasoning line (more reasoning, a blank line, a second answer) is
    dropped, and the reasoning kept is the first line of it alone. *)
Theorem text_after_second_line_ignored (x y rest : string) :
  has_newline x = false ->
  has_newline y = false ->
  parse_verdict ("CONFIDENCE: " ++ x ++ nl ++ "REASONING: " ++ y ++ nl ++ rest)
  = {| confidence := strip x; reasoning := strip y |}.
Proof.
  intros Hx Hy.
  assert (Hs : "CONFIDENCE: " ++ x ++ nl ++ "REASONING: " ++ y ++ nl ++ rest
               = ("CONFIDENCE: " ++ x ++ nl ++ "REASONING: " ++ y) ++ String "010" rest)
    by now rewrite !append_assoc.
  destruct (rstrip rest) as [|c r] eqn:E.
  - rewrite <- (parse_two_lines x y Hx Hy). apply parse_verdict_strip.
    unfold strip. f_equal. rewrite Hs, rstrip_append, rstrip_cons, E. reflexivity.
  - rewrite <- (strip_after_space x), <- (strip_after_space y).
    apply (parse_lines _ (" " ++ x) (" " ++ y) (split "010" (String c r))).
    unfold strip. rewrite Hs, rstrip_append, rstrip_cons, E. cbv iota.
    rewrite !append_assoc. rewrite lstrip_confidence.
    replace ("CONFIDENCE: " ++ x ++ nl ++ "REASONING: " ++ y ++ String "010" (String c r))
      with (("CONFIDENCE:" ++ " " ++ x) ++ nl
            ++ ("REASONING:" ++ " " ++ y) ++ nl ++ String c r)
      by now rewrite !append_assoc.
    rewrite split_first_line by exact Hx.
    rewrite split_first_line by exact Hy.
    reflexivity.
Qed.

Lemma text_after_second_line_ignored_witness :
  parse_verdict ("CONFIDENCE: " ++ "High" ++ nl ++ "REASONING: " ++ "Random, 40 characters,"
                 ++ nl ++ "and the variable is named api_key.")
  = {| confidence := strip "High"; reasoning := strip "Random, 40 characters," |}.
Proof.
  apply (text_after_second_line_ignored "High" "Random, 40 characters,"
           "and the variable is named api_key."); reflexivity.
Defined.

(** ** More on the loop *)

Lemma clock_reads_app (a b : Trace) :
  clock_reads (a ++ b)%list = (clock_reads a ++ clock_reads b)%list.
Proof. apply filter_app. Qed.

(** The body of the loop on a row whose secret is usable: some log lines,
    the classifier, the parser, the gate. *)
Lemma process_row_usable (env : Env) (st : LoopState) (row : Row) (t : Trace)
    (v : string) :
  usable_str (getattr (row_potential_secret row) PyNone) = Some v ->
  exists evs0,
    model_calls evs0 = [] /\ sink_calls evs0 = [] /\ clock_reads evs0 = []
    /\ forall text t1,
         analyze_with_ai env (content_of row) (Some v) (t ++ evs0)%list = (Ok text, t1) ->
         exists evs2,
           process_row env st row t
           = collect env (counted st)
               (getattr (row_repo_name row) (PyStr "N/A"))
               (getattr (row_path row) (PyStr "N/A"))
               v (parse_verdict text) (t1 ++ evs2)%list
           /\ model_calls evs2 = [] /\ sink_calls evs2 = [] /\ clock_reads evs2 = [].
Proof.
  intros Hv. unfold process_row, content_of. cbv zeta. rewrite Hv.
  destruct (usable_str (getattr (row_content row) PyNone)) as [content|].
  - eexists [Logged INFO _]. do 3 (split; [reflexivity|]).
    intros text t1 Hrun.
    unfold bind at 1, ret at 1. unfold bind at 1, log at 1, emit at 1.
    unfold bind at 1. rewrite Hrun.
    rewrite parse_never_raises. run_monad. flatten_trace.
    eexists [_; _]. split; [reflexivity | repeat split].
  - eexists [Logged WARNING _; Logged INFO _]. do 3 (split; [reflexivity|]).
    intros text t1 Hrun.
    unfold bind at 1. unfold bind at 1, log at 1, emit at 1, ret at 1.
    unfold bind at 1, log at 1, emit at 1.
    unfold bind at 1. flatten_trace. rewrite Hrun.
    rewrite parse_never_raises. run_monad. flatten_trace.
    eexists [_; _]. split; [reflexivity | repeat split].
Qed.

(** The calls of the model that one run of the classifier adds. *)
Lemma analyze_model_calls (env : Env) (code_snippet : string)
    (potential_secret_value : option string) (t : Trace) :
  exists text evs,
    analyze_with_ai env code_snippet potential_secret_value t = (Ok text, (t ++ evs)%list)
    /\ sink_calls evs = [] /\ clock_reads evs = []
    /\ List.length (model_calls evs)
       = (if is_placeholder potential_secret_value then 0 else 1)
    /\ (is_placeholder potential_secret_value = true -> text = placeholder_text).
Proof.
  destruct (is_placeholder potential_secret_value) eqn:H.
  - unfold analyze_with_ai. rewrite H. run_monad. cbv beta iota.
    eexists _, [_]. repeat split.
  - rewrite (analyze_with_ai_run env code_snippet potential_secret_value t H). cbv zeta.
    destruct (generate_content _ _ _) as [response|e].
    + destruct (negb _ || negb _); eexists _, _; repeat split; discriminate.
    + eexists _, _. repeat split; discriminate.
Qed.

Lemma placeholder_text_rejected : gate (confidence (parse_verdict placeholder_text)) = false.
Proof. reflexivity. Qed.

(** What one row costs and what it can add. *)
Lemma process_row_cost (env : Env) (st : LoopState) (row : Row) (t : Trace) :
  exists st' evs,
    process_row env st row t = (Ok st', (t ++ evs)%list)
    /\ List.length (model_calls evs) = (if needs_model row then 1 else 0)
    /\ List.length (rows_to_insert st')
       <= List.length (rows_to_insert st) + (if needs_model row then 1 else 0).
Proof.
  unfold needs_model.
  destruct (usable_str (getattr (row_potential_secret row) PyNone)) as [v|] eqn:Hv.
  2:{ rewrite (process_row_skip env st row t Hv). eexists _, [_].
      split; [reflexivity|]. split; [reflexivity|]. cbn. lia. }
  destruct (process_row_usable env st row t v Hv) as (evs0 & Hm0 & _ & _ & Hrow).
  destruct (analyze_model_calls env (content_of row) (Some v) (t ++ evs0)%list)
    as (text & evs1 & Hrun & _ & _ & Hm1 & Hph).
  destruct (Hrow _ _ Hrun) as (evs2 & -> & Hm2 & _ & _).
  rewrite collect_run.
  destruct (gate (confidence (parse_verdict text))) eqn:G.
  - destruct (is_placeholder (Some v)) eqn:P.
    { rewrite (Hph eq_refl), placeholder_text_rejected in G. discriminate. }
    flatten_trace. eexists _, _. split; [reflexivity|].
    cbn [negb rows_to_insert]. rewrite !model_calls_app, !length_app, Hm0, Hm1, Hm2.
    cbn. split; lia.
  - flatten_trace. eexists _, _. split; [reflexivity|].
    rewrite !model_calls_app, !length_app, Hm0, Hm1, Hm2. cbn [rows_to_insert counted].
    destruct (is_placeholder (Some v)); cbn; split; lia.
Qed.

(** X9: the loop calls the model once for each row whose secret is a
    non-empty [str] and no placeholder, and for no other row; it adds at
    most one finding for each such call.  So a run costs no more calls
    than the query returned rows, and a run of placeholders costs none
    and finds nothing. *)
Theorem model_calls_counted (env : Env) (l : list Row) (st : LoopState) (t : Trace) :
  exists st' t',
    for_rows env st l t = (Ok st', t')
    /\ List.length (model_calls t')
       = List.length (model_calls t) + List.length (filter needs_model l)
    /\ List.length (rows_to_insert st')
       <= List.length (rows_to_insert st) + List.length (filter needs_model l)
    /\ List.length (filter needs_model l) <= List.length l.
Proof.
  revert st t; induction l as [|row l IH]; intros st t.
  - exists st, t. cbn. repeat split; lia.
  - destruct (process_row_cost env st row t) as (st1 & evs1 & H1 & Hm1 & Hr1).
    destruct (IH st1 (t ++ evs1)%list) as (st2 & t2 & H2 & Hm2 & Hr2 & Hl).
    exists st2, t2. cbn [for_rows]. unfold bind. rewrite H1, H2.
    split; [reflexivity|].
    rewrite Hm2, model_calls_app, length_app, Hm1.
    cbn [filter List.length]. destruct (needs_model row); cbn [List.length]; repeat split; lia.
Qed.

(** *** When the model is down *)

Lemma analyze_rejected_when_down (env : Env) :
  (forall n p, exists e, generate_content env n p = GenRaises e) ->
  forall code_snippet potential_secret_value t text t1,
    analyze_with_ai env code_snippet potential_secret_value t = (Ok text, t1) ->
    gate (confidence (parse_verdict text)) = false.
Proof.
  intros Hdown code_snippet v t text t1.
  destruct (is_placeholder v) eqn:P.
  - unfold analyze_with_ai. rewrite P. run_monad. intros [= <- _]. reflexivity.
  - rewrite (analyze_with_ai_run env code_snippet v t P). cbv zeta.
    destruct (Hdown (List.length (model_calls t))
                (build_prompt (extract_context context_window code_snippet v) v))
      as [e ->].
    destruct (contains "Quota" (exc_str e)); intros [= <- _]; reflexivity.
Qed.

Lemma for_rows_model_down (env : Env) :
  (forall n p, exists e, generate_content env n p = GenRaises e) ->
  forall (l : list Row) (st : LoopState) (t : Trace),
  exists st' evs,
    for_rows env st l t = (Ok st', (t ++ evs)%list)
    /\ rows_to_insert st' = rows_to_insert st
    /\ processed_count st' = processed_count st + List.length l
    /\ sink_calls evs = [].
Proof.
  intros Hdown l. induction l as [|row l IH]; intros st t.
  - exists st, []. cbn. rewrite app_nil_r, Nat.add_0_r. repeat split.
  - assert (Hrow : exists evs1, process_row env st row t = (Ok (counted st), (t ++ evs1)%list)
                                /\ sink_calls evs1 = []).
    { destruct (usable_str (getattr (row_potential_secret row) PyNone)) as [v|] eqn:Hv.
      2:{ rewrite (process_row_skip env st row t Hv). eexists [_]. split; reflexivity. }
      destruct (process_row_usable env st row t v Hv) as (evs0 & _ & Hs0 & _ & Hrow).
      destruct (analyze_with_ai_returns env (content_of row) (Some v) (t ++ evs0)%list)
        as (text & evs1 & Hrun & Hs1 & _).
      destruct (Hrow _ _ Hrun) as (evs2 & -> & _ & Hs2 & _).
      rewrite collect_run, (analyze_rejected_when_down env Hdown _ _ _ _ _ Hrun).
      flatten_trace. eexists. split; [reflexivity|].
      now rewrite !sink_calls_app, Hs0, Hs1, Hs2. }
    destruct Hrow as (evs1 & H1 & Hs1).
    destruct (IH (counted st) (t ++ evs1)%list) as (st2 & evs2 & H2 & Hr2 & Hp2 & Hs2).
    exists st2, (evs1 ++ evs2)%list. cbn [for_rows]. unfold bind. rewrite H1, H2.
    rewrite app_assoc, sink_calls_app, Hs1, Hs2, Hr2, Hp2.
    cbn [counted rows_to_insert processed_count List.length]. repeat split. lia.
Qed.

(** X10: when every call of the model raises (an outage, an exhausted
    quota), the run still ends with the status 200: it reports every row
    as processed and 0 leaks, and the sink is not called.  The outage
    shows in the log alone. *)
Theorem model_down_reports_zero (env : Env) (t : Trace) (results : RowIterator) :
  (forall n p, exists e, generate_content env n p = GenRaises e) ->
  run_query env HUNT_QUERY = QueryReturns results ->
  iter_raises results = None ->
  fst (hunt_and_analyze env t)
  = Ok (final_message (List.length (rows results)) 0, 200)
  /\ sink_calls (snd (hunt_and_analyze env t)) = sink_calls t.
Proof.
  intros Hdown Hq Hiter.
  destruct (for_rows_model_down env Hdown (rows results) initial_state
              (trace_at_loop t results)) as (st & evs & Hfor & Hrows & Hcount & Hsink).
  cbn [rows_to_insert processed_count initial_state Nat.add] in Hrows, Hcount.
  destruct (log_to_bigquery_returns env (rows_to_insert st)
              (trace_at_loop t results ++ evs)%list) as (evs' & Hlog & Hsink').
  rewrite (hunt_run env t results st _ _ Hq Hiter Hfor Hlog).
  rewrite Hrows, Hcount. cbn [fst snd List.length]. split; [reflexivity|].
  unfold trace_at_loop. rewrite !sink_calls_app, Hsink, (Hsink' Hrows). cbn.
  now rewrite !app_nil_r.
Qed.

Lemma model_down_reports_zero_witness :
  fst (hunt_and_analyze
         (constant_env (GenRaises (unreachable "Vertex AI")) (QueryReturns ten_candidates)
                       (InsertReturns [])) [])
  = Ok (final_message (List.length (rows ten_candidates)) 0, 200)
  /\ sink_calls (snd (hunt_and_analyze
         (constant_env (GenRaises (unreachable "Vertex AI")) (QueryReturns ten_candidates)
                       (InsertReturns [])) []))
     = sink_calls [].
Proof.
  apply (model_down_reports_zero
           (constant_env (GenRaises (unreachable "Vertex AI")) (QueryReturns ten_candidates)
                         (InsertReturns [])) [] ten_candidates).
  - intros n p. exists (unreachable "Vertex AI"). reflexivity.
  - reflexivity.
  - reflexivity.
Defined.

(** *** The accepted row *)

(** X11: a row with a usable secret that is no placeholder, answered by
    the model in the two-line format with the confidence High or Medium,
    adds exactly one finding: the repository and the path of the row
    (or "N/A" for one the row lacks), the first 1024 characters of the
    secret, the confidence as the model wrote it, the first 1024
    characters of the stripped reasoning, and the reading of the clock
    followed by "Z".  The content of the row plays no part in it. *)
Theorem accepted_row_adds_finding (env : Env) (st : LoopState) (row : Row) (t : Trace)
    (v x y : string) (response : Response) :
  usable_str (getattr (row_potential_secret row) PyNone) = Some v ->
  is_placeholder (Some v) = false ->
  (forall n p, generate_content env n p = GenReturns response) ->
  analysis_text_of response = "CONFIDENCE: " ++ x ++ nl ++ "REASONING: " ++ y ->
  In x ["High"; "Medium"] ->
  has_newline y = false ->
  exists st' t',
    process_row env st row t = (Ok st', t')
    /\ rows_to_insert st'
       = (rows_to_insert st
          ++ [{| repo_name := getattr (row_repo_name row) (PyStr "N/A");
                 file_path := getattr (row_path row) (PyStr "N/A");
                 secret_snippet := slice v 0 1024;
                 ai_confidence := x;
                 ai_reasoning := slice (strip y) 0 1024;
                 scan_timestamp :=
                   utcnow_isoformat env (List.length (clock_reads t)) ++ "Z" |}])%list
    /\ count st' = count st + 1
    /\ processed_count st' = processed_count st + 1.
Proof.
  intros Hv P Hgen Htext Hx Hy.
  destruct (process_row_usable env st row t v Hv) as (evs0 & _ & _ & Hc0 & Hrow).
  assert (Hrun : analyze_with_ai env (content_of row) (Some v) (t ++ evs0)%list
                 = (Ok ("CONFIDENCE: " ++ x ++ nl ++ "REASONING: " ++ y),
                    ((t ++ evs0)
                     ++ [GenerateContent
                           (build_prompt
                              (extract_context context_window (content_of row) (Some v))
                              (Some v))])%list)).
  { rewrite (analyze_with_ai_run env (content_of row) (Some v) _ P). cbv zeta.
    rewrite Hgen, Htext.
    assert (contains "CONFIDENCE:" ("CONFIDENCE: " ++ x ++ nl ++ "REASONING: " ++ y) = true)
      as -> by (apply contains_split; now exists EmptyString, (" " ++ x ++ nl ++ "REASONING: " ++ y)).
    assert (contains "REASONING:" ("CONFIDENCE: " ++ x ++ nl ++ "REASONING: " ++ y) = true)
      as ->.
    { apply contains_split. exists ("CONFIDENCE: " ++ x ++ nl), (" " ++ y).
      now rewrite !append_assoc. }
    reflexivity. }
  destruct (Hrow _ _ Hrun) as (evs2 & -> & _ & _ & Hc2).
  assert (has_newline x = false /\ strip x = x /\ gate x = true) as (Hnl & Hstrip & Hgate).
  { cbn [In] in Hx. destruct Hx as [<-|[<-|[]]]; repeat split. }
  rewrite collect_run, (parse_two_lines x y Hnl Hy), Hstrip.
  cbn [confidence reasoning]. rewrite Hgate.
  eexists _, _. split; [reflexivity|].
  cbn [rows_to_insert count processed_count counted].
  rewrite !clock_reads_app, Hc0, Hc2. cbn [clock_reads filter is_utcnow app].
  rewrite !app_nil_r. repeat split.
Qed.

Lemma accepted_row_adds_finding_witness :
  exists st' t',
    process_row
      (constant_env (says ("CONFIDENCE: " ++ "High" ++ nl ++ "REASONING: "
                           ++ "Looks like a live password."))
                    (returns_rows []) (InsertReturns []))
      initial_state
      (candidate "r1" "cfg.yaml" "password: AbCdEf1234567890XyZ" "AbCdEf1234567890XyZ") []
    = (Ok st', t')
    /\ rows_to_insert st'
       = (rows_to_insert initial_state
          ++ [{| repo_name := PyStr "r1";
                 file_path := PyStr "cfg.yaml";
                 secret_snippet := slice "AbCdEf1234567890XyZ" 0 1024;
                 ai_confidence := "High";
                 ai_reasoning := slice (strip "Looks like a live password.") 0 1024;
                 scan_timestamp := "2024-01-01T00:00:00.000000" ++ "Z" |}])%list
    /\ count st' = count initial_state + 1
    /\ processed_count st' = processed_count initial_state + 1.
Proof.
  apply (accepted_row_adds_finding
           (constant_env (says ("CONFIDENCE: " ++ "High" ++ nl ++ "REASONING: "
                                ++ "Looks like a live password."))
                         (returns_rows []) (InsertReturns []))
           initial_state
           (candidate "r1" "cfg.yaml" "password: AbCdEf1234567890XyZ" "AbCdEf1234567890XyZ")
           [] "AbCdEf1234567890XyZ" "High" "Looks like a live password."
           {| parts0_text := Some ("CONFIDENCE: " ++ "High" ++ nl ++ "REASONING: "
                                   ++ "Looks like a live password.");
              text_attr := None;
              response_str := "CONFIDENCE: " ++ "High" ++ nl ++ "REASONING: "
                              ++ "Looks like a live password." |}).
  - reflexivity.
  - reflexivity.
  - intros n p. reflexivity.
  - reflexivity.
  - left. reflexivity.
  - reflexivity.
Defined.

(** ** More on the sink *)

Lemma log_to_bigquery_sink_calls (env : Env) (batch : list Finding) (t : Trace) :
  exists evs,
    log_to_bigquery env batch t = (Ok tt, (t ++ evs)%list)
    /\ sink_calls evs = match batch with
                        | [] => []
                        | _ :: _ => [InsertRowsJson batch]
                        end.
Proof.
  destruct batch as [|f batch].
  - eexists [_]. split; reflexivity.
  - unfold log_to_bigquery. unfold try_except, bind at 1, bq_client_insert_rows_json.
    destruct (insert_rows_json env (f :: batch)) as [[|d errors]|e].
    + run_monad. flatten_trace. eexists. split; reflexivity.
    + rewrite for_each_log. flatten_trace. eexists. split; [reflexivity|].
      change (sink_calls (InsertRowsJson (f :: batch)
                :: map (fun d0 => Logged ERROR _) (d :: errors)))
        with (InsertRowsJson (f :: batch)
                :: sink_calls (map (fun d0 => Logged ERROR
                     ("BigQuery insert error: Index " ++ str_nat (err_index d0)
                      ++ ", Errors: " ++ err_errors d0)) (d :: errors))).
      f_equal. generalize (d :: errors). intros l. induction l; [reflexivity | exact IHl].
    + run_monad. flatten_trace. eexists. split; reflexivity.
Qed.

(** X12: when the sink returns a list of errors for a batch,
    [log_to_bigquery] sends the batch once, logs one error line for each
    failed record, in the order of the list, with its index and its
    errors, logs nothing else, and returns normally. *)
Theorem insert_errors_logged (env : Env) (batch : list Finding) (t : Trace)
    (errors : list InsertError) :
  batch <> [] ->
  errors <> [] ->
  insert_rows_json env batch = InsertReturns errors ->
  log_to_bigquery env batch t
  = (Ok tt,
     (t ++ InsertRowsJson batch
           :: map (fun d => Logged ERROR ("BigQuery insert error: Index "
                                          ++ str_nat (err_index d)
                                          ++ ", Errors: " ++ err_errors d))
                  errors)%list).
Proof.
  intros Hb He Hins. destruct batch as [|f batch]; [now elim Hb|].
  destruct errors as [|d errors]; [now elim He|].
  unfold log_to_bigquery. unfold try_except, bind at 1, bq_client_insert_rows_json.
  rewrite Hins, for_each_log. flatten_trace. reflexivity.
Qed.

Lemma insert_errors_logged_witness :
  log_to_bigquery
    (constant_env (says "none") (returns_rows [])
       (InsertReturns [{| err_index := 0; err_errors := "invalid" |};
                       {| err_index := 2; err_errors := "stopped" |}]))
    [{| repo_name := PyStr "r1"; file_path := PyStr "cfg.yaml";
        secret_snippet := "AbCdEf1234567890XyZ"; ai_confidence := "High";
        ai_reasoning := "Looks like a live password.";
        scan_timestamp := "2024-01-01T00:00:00.000000Z" |}] []
  = (Ok tt,
     ([] ++ InsertRowsJson
              [{| repo_name := PyStr "r1"; file_path := PyStr "cfg.yaml";
                  secret_snippet := "AbCdEf1234567890XyZ"; ai_confidence := "High";
                  ai_reasoning := "Looks like a live password.";
                  scan_timestamp := "2024-01-01T00:00:00.000000Z" |}]
           :: map (fun d => Logged ERROR ("BigQuery insert error: Index "
                                          ++ str_nat (err_index d)
                                          ++ ", Errors: " ++ err_errors d))
                  [{| err_index := 0; err_errors := "invalid" |};
                   {| err_index := 2; err_errors := "stopped" |}])%list).
Proof.
  apply (insert_errors_logged
           (constant_env (says "none") (returns_rows [])
              (InsertReturns [{| err_index := 0; err_errors := "invalid" |};
                              {| err_index := 2; err_errors := "stopped" |}])));
    [discriminate | discriminate | reflexivity].
Defined.

(** ** More on the entry point *)

(** A run whose query raises. *)
Lemma hunt_run_query_fails (env : Env) (t : Trace) (e : Exc) :
  run_query env HUNT_QUERY = QueryRaises e ->
  exists body evs,
    hunt_and_analyze env t = (Ok (body, 500), (t ++ evs)%list)
    /\ sink_calls evs = [] /\ model_calls evs = [].
Proof.
  intros Hq. unfold hunt_and_analyze. run_monad. rewrite Hq.
  destruct (exc_class e); flatten_trace; eexists _, _; repeat split.
Qed.

(** A run whose iterator raises after the rows it yielded. *)
Lemma hunt_run_iter_fails (env : Env) (t : Trace) (results : RowIterator) (e : Exc)
    (st : LoopState) (t1 : Trace) :
  run_query env HUNT_QUERY = QueryReturns results ->
  iter_raises results = Some e ->
  for_rows env initial_state (rows results) (trace_at_loop t results) = (Ok st, t1) ->
  exists line,
    hunt_and_analyze env t
    = (Ok ((match exc_class e with
            | Forbidden => "Permission Error: "
            | BadRequest => "Bad Query Error: "
            | OtherException => "Error during execution: "
            end) ++ exc_str e, 500),
       (t1 ++ line)%list)
    /\ sink_calls line = [] /\ model_calls line = [].
Proof.
  intros Hq Hiter Hfor.
  unfold trace_at_loop, initial_state in Hfor.
  unfold hunt_and_analyze, iterate. run_monad. rewrite Hq. flatten_trace.
  rewrite Hfor, Hiter.
  destruct (exc_class e); flatten_trace; eexists; repeat split.
Qed.

(** X13: when the iterator of the rows raises part way, the run answers
    500 with the body of the class of the error, and the sink is never
    called: the findings of the rows already processed are dropped. *)
Theorem iteration_failure_drops_findings (env : Env) (t : Trace)
    (results : RowIterator) (e : Exc) :
  run_query env HUNT_QUERY = QueryReturns results ->
  iter_raises results = Some e ->
  fst (hunt_and_analyze env t)
  = Ok ((match exc_class e with
         | Forbidden => "Permission Error: "
         | BadRequest => "Bad Query Error: "
         | OtherException => "Error during execution: "
         end) ++ exc_str e, 500)
  /\ sink_calls (snd (hunt_and_analyze env t)) = sink_calls t.
Proof.
  intros Hq Hiter.
  destruct (for_rows_returns env (rows results) initial_state (trace_at_loop t results))
    as (st & evs & added & Hfor & _ & Hsink & _).
  destruct (hunt_run_iter_fails env t results e st _ Hq Hiter Hfor)
    as (line & -> & Hline & _).
  cbn [fst snd]. split; [reflexivity|].
  unfold trace_at_loop. rewrite !sink_calls_app, Hsink, Hline. cbn.
  now rewrite !app_nil_r.
Qed.

Lemma iteration_failure_drops_findings_witness :
  fst (hunt_and_analyze
         (constant_env (says ("CONFIDENCE: High" ++ nl ++ "REASONING: Looks live."))
            (QueryReturns
               {| total_rows := 2;
                  rows := [candidate "r1" "cfg.yaml" "key: AbCdEf1234567890XyZ"
                                     "AbCdEf1234567890XyZ"];
                  iter_raises := Some (unreachable "The next page") |})
            (InsertReturns [])) [])
  = Ok ((match exc_class (unreachable "The next page") with
         | Forbidden => "Permission Error: "
         | BadRequest => "Bad Query Error: "
         | OtherException => "Error during execution: "
         end) ++ exc_str (unreachable "The next page"), 500)
  /\ sink_calls (snd (hunt_and_analyze
         (constant_env (says ("CONFIDENCE: High" ++ nl ++ "REASONING: Looks live."))
            (QueryReturns
               {| total_rows := 2;
                  rows := [candidate "r1" "cfg.yaml" "key: AbCdEf1234567890XyZ"
                                     "AbCdEf1234567890XyZ"];
                  iter_raises := Some (unreachable "The next page") |})
            (InsertReturns [])) []))
     = sink_calls [].
Proof.
  apply (iteration_failure_drops_findings
           (constant_env (says ("CONFIDENCE: High" ++ nl ++ "REASONING: Looks live."))
              (QueryReturns
                 {| total_rows := 2;
                    rows := [candidate "r1" "cfg.yaml" "key: AbCdEf1234567890XyZ"
                                       "AbCdEf1234567890XyZ"];
                    iter_raises := Some (unreachable "The next page") |})
              (InsertReturns [])) []
           {| total_rows := 2;
              rows := [candidate "r1" "cfg.yaml" "key: AbCdEf1234567890XyZ"
                                 "AbCdEf1234567890XyZ"];
              iter_raises := Some (unreachable "The next page") |}
           (unreachable "The next page"));
    reflexivity.
Defined.

(** X14: the entry point never raises: every exception of the query, of
    the iteration, of the model and of the sink is caught on the way.  It
    answers with a body and the status 200 or 500, and the status is 200
    exactly when the query returned and the iteration over its rows
    ended normally. *)
Theorem entry_point_status (env : Env) (t : Trace) :
  exists body status,
    fst (hunt_and_analyze env t) = Ok (body, status)
    /\ (status = 200 \/ status = 500)
    /\ (status = 200
        <-> exists results,
              run_query env HUNT_QUERY = QueryReturns results
              /\ iter_raises results = None).
Proof.
  destruct (run_query env HUNT_QUERY) as [results|e] eqn:Hq.
  - destruct (for_rows_returns env (rows results) initial_state (trace_at_loop t results))
      as (st & evs & added & Hfor & _).
    destruct (iter_raises results) as [e|] eqn:Hiter.
    + destruct (hunt_run_iter_fails env t results e st _ Hq Hiter Hfor) as (line & -> & _).
      eexists _, 500. split; [reflexivity|]. split; [now right|].
      split; [discriminate|]. intros (r & [= <-] & H). congruence.
    + destruct (log_to_bigquery_returns env (rows_to_insert st)
                  (trace_at_loop t results ++ evs)%list) as (evs' & Hlog & _).
      rewrite (hunt_run env t results st _ _ Hq Hiter Hfor Hlog).
      eexists _, 200. split; [reflexivity|]. split; [now left|].
      split; [|reflexivity]. intros _. now exists results.
  - destruct (hunt_run_query_fails env t e Hq) as (body & evs & -> & _).
    exists body, 500. split; [reflexivity|]. split; [now right|].
    split; [discriminate|]. intros (r & [=] & _).
Qed.

(** X15: in a run whose query returned and whose iteration ended
    normally, the sink is called once, after the last row, with the whole
    list of accepted findings in the order of the rows; it is not called
    when that list is empty. *)
Theorem sink_called_once_with_batch (env : Env) (t : Trace) (results : RowIterator) :
  run_query env HUNT_QUERY = QueryReturns results ->
  iter_raises results = None ->
  exists st,
    fst (for_rows env initial_state (rows results) (trace_at_loop t results)) = Ok st
    /\ sink_calls (snd (hunt_and_analyze env t))
       = (sink_calls t
          ++ match rows_to_insert st with
             | [] => []
             | _ :: _ => [InsertRowsJson (rows_to_insert st)]
             end)%list.
Proof.
  intros Hq Hiter.
  destruct (for_rows_returns env (rows results) initial_state (trace_at_loop t results))
    as (st & evs & added & Hfor & _ & Hsink & _).
  destruct (log_to_bigquery_sink_calls env (rows_to_insert st)
              (trace_at_loop t results ++ evs)%list) as (evs' & Hlog & Hsink').
  exists st. rewrite Hfor, (hunt_run env t results st _ _ Hq Hiter Hfor Hlog).
  cbn [fst snd]. split; [reflexivity|].
  unfold trace_at_loop. rewrite !sink_calls_app, Hsink, Hsink'. cbn.
  now rewrite !app_nil_r.
Qed.

Lemma sink_called_once_with_batch_witness :
  exists st,
    fst (for_rows
           (constant_env (says ("CONFIDENCE: High" ++ nl ++ "REASONING: Looks live."))
              (returns_rows [candidate "r1" "cfg.yaml" "key: AbCdEf1234567890XyZ"
                                       "AbCdEf1234567890XyZ"])
              (InsertReturns []))
           initial_state
           (rows {| total_rows := 1;
                    rows := [candidate "r1" "cfg.yaml" "key: AbCdEf1234567890XyZ"
                                       "AbCdEf1234567890XyZ"];
                    iter_raises := None |})
           (trace_at_loop []
              {| total_rows := 1;
                 rows := [candidate "r1" "cfg.yaml" "key: AbCdEf1234567890XyZ"
                                    "AbCdEf1234567890XyZ"];
                 iter_raises := None |}))
    = Ok st
    /\ sink_calls (snd (hunt_and_analyze
           (constant_env (says ("CONFIDENCE: High" ++ nl ++ "REASONING: Looks live."))
              (returns_rows [candidate "r1" "cfg.yaml" "key: AbCdEf1234567890XyZ"
                                       "AbCdEf1234567890XyZ"])
              (InsertReturns [])) []))
       = (sink_calls []
          ++ match rows_to_insert st with
             | [] => []
             | _ :: _ => [InsertRowsJson (rows_to_insert st)]
             end)%list.
Proof.
  apply (sink_called_once_with_batch
           (constant_env (says ("CONFIDENCE: High" ++ nl ++ "REASONING: Looks live."))
              (returns_rows [candidate "r1" "cfg.yaml" "key: AbCdEf1234567890XyZ"
                                       "AbCdEf1234567890XyZ"])
              (InsertReturns [])) []
           {| total_rows := 1;
              rows := [candidate "r1" "cfg.yaml" "key: AbCdEf1234567890XyZ"
                                 "AbCdEf1234567890XyZ"];
              iter_raises := None |});
    reflexivity.
Defined.
